(** * Controls of a water-network simulation (wntr/network/controls.py)

    A shallow embedding of the control conditions, control actions and
    controls of [wntr.network.controls], and the properties of them that
    the specification states.

    Conventions of the embedding.
    - Simulation times ([sim_time], [shifted_time], thresholds of the time
      conditions, [run_at_time]) are whole seconds, modelled as [Z]; on
      them Python's [int(x)] is the identity, [x % n] is [Z.modulo] (both
      take the sign of the divisor) and [np.floor(x / n)] is [Z.div].
    - Physical quantities (heads, flows, settings, thresholds, tolerances)
      are Python floats, that is, IEEE doubles.  The floats that the
      network holds are finite; each is given by its exact value, a
      rational of [Q].  Comparing two of them is comparing their values.
      Arithmetic on them is the binary64 arithmetic of the kernel
      ([PrimFloat]): it rounds to nearest, ties to even, overflows to an
      infinity and yields NaN as the interpreter's arithmetic does.  A
      decimal of an example that is not a double, such as 0.01, enters
      the arithmetic as the double nearest to it, as the literal does.
    - A Python int is unbounded, a [Z]; an operation on two ints is exact,
      one on an int and a float converts the int first.
    - A Python object is a class tag with an attribute bag; objects live
      in a heap indexed by their identity, and a reference is the
      identity.  [hasattr]/[getattr]/[setattr] are lookups and inserts.
    - Strings are ASCII text.
    - A raised exception is the [Raise] result. *)

From Stdlib Require Import ZArith QArith Qround Qabs String Ascii DecimalString List Bool Lia.
From Stdlib Require Floats Uint63.
From stdpp Require Import base option gmap strings.
Import ListNotations.

#[local] Open Scope Z_scope.

(** ** Exceptions and results *)

Inductive exn : Set :=
| ValueError
| RuntimeError
| TypeError
| AttributeError
| IndexError
| ZeroDivisionError
| OverflowError.

Inductive result (A : Type) : Type :=
| Ok (a : A)
| Raise (e : exn).

Arguments Ok {A} a.
Arguments Raise {A} e.

#[global] Instance result_ret : MRet result := fun _ a => Ok a.
#[global] Instance result_bind : MBind result := fun _ _ f m =>
  match m with
  | Ok a => f a
  | Raise e => Raise e
  end.

(** ** The simulator's clock, as the conditions and controls read it *)

Record WaterNetworkModel : Set := {
  sim_time : Z;
  prev_sim_time : Z;
  shifted_time : Z;
  prev_shifted_time : Z
}.

(** The comparison functions of numpy that the module uses as relations. *)
Inductive ufunc : Set :=
| np_equal
| np_not_equal
| np_less
| np_greater
| np_less_equal
| np_greater_equal.

#[global] Instance ufunc_eq_dec : EqDecision ufunc.
Proof. solve_decision. Defined.

(** The [relation] argument of the time conditions: [None], a string, or a
    numpy comparison. *)
Inductive relation_arg : Set :=
| RelNone
| RelStr (s : string)
| RelUfunc (f : ufunc).

(** [str.lower] on ASCII letters. *)
Definition lower_ascii (c : ascii) : ascii :=
  let n := nat_of_ascii c in
  if (Nat.leb 65 n && Nat.leb n 90)%bool then ascii_of_nat (n + 32) else c.

Fixpoint lower (s : string) : string :=
  match s with
  | EmptyString => EmptyString
  | String c s' => String (lower_ascii c) (lower s')
  end.

Definition str_in (s : string) (l : list string) : bool :=
  existsb (String.eqb s) l.

(** ** Time conditions *)

(** The straddle test shared, branch for branch, by the two [evaluate]
    methods is written out in each of them as the source does; the two
    differ in the last two branches. *)

Module TimeOfDayCondition.

Record t : Set := {
  _threshold : Z;
  _relation : Z;
  _first_day : Z;
  _repeat : bool;
  _backtrack : option Z
}.

Definition set_backtrack (c : t) (b : option Z) : t :=
  {| _threshold := _threshold c; _relation := _relation c;
     _first_day := _first_day c; _repeat := _repeat c; _backtrack := b |}.

(** [__init__(self, model, relation, threshold, repeat=True, first_day=0)] *)
Definition __init__ (relation : relation_arg) (threshold : Z)
    (repeat : bool) (first_day : Z) : result t :=
  let relation :=
    match relation with
    | RelStr s => RelStr (lower s)
    | r => r
    end in
  let mk r := Ok {| _threshold := threshold; _relation := r;
                    _first_day := first_day; _repeat := repeat;
                    _backtrack := Some 0 |} in
  match relation with
  | RelNone => mk 0
  | RelUfunc np_equal => mk 0
  | RelUfunc np_less | RelUfunc np_less_equal => mk (-1)
  | RelUfunc np_greater | RelUfunc np_greater_equal => mk 1
  | RelUfunc np_not_equal => Raise ValueError
  | RelStr s =>
      if str_in s ["at"; "="; "is"]%string then mk 0
      else if str_in s ["before"; "below"; "<"; "<="]%string then mk (-1)
      else if str_in s ["after"; "above"; ">"; ">="]%string then mk 1
      else Raise ValueError
  end.

(** [evaluate(self)]: the truth value, and the condition with its
    [_backtrack] updated. *)
Definition evaluate (model : WaterNetworkModel) (c : t) : bool * t :=
  let cur_time := shifted_time model in
  let prev_time := prev_shifted_time model in
  let day := cur_time / 86400 in
  if day <? _first_day c then (false, set_backtrack c None)
  else
    let cur_time :=
      if _repeat c then (cur_time - _threshold c) mod 86400
      else cur_time - _first_day c * 86400 in
    let prev_time :=
      if _repeat c then (prev_time - _threshold c) mod 86400
      else prev_time - _first_day c * 86400 in
    if (_relation c =? 0) && ((prev_time <? _threshold c) && (_threshold c <=? cur_time))
    then (true, set_backtrack c (Some (cur_time - _threshold c)))
    else if (_relation c =? 1) && (cur_time >=? _threshold c) && (prev_time <? _threshold c)
    then (true, set_backtrack c (Some (cur_time - _threshold c)))
    else if (_relation c =? 1) && (cur_time >=? _threshold c) && (prev_time >=? _threshold c)
    then (true, set_backtrack c (Some 0))
    else if (_relation c =? -1) && (cur_time >=? _threshold c) && (prev_time <? _threshold c)
    then (false, set_backtrack c (Some (cur_time - _threshold c)))
    else if (_relation c =? -1) && (cur_time >=? _threshold c) && (prev_time >=? _threshold c)
    then (false, set_backtrack c None)
    else (false, set_backtrack c None).

End TimeOfDayCondition.

Module SimTimeCondition.

(** [_repeat] is [False] or a number of seconds; [False] is stored as
    [0], which Python equates with it and which is falsy like it. *)
Record t : Set := {
  _threshold : Z;
  _relation : Z;
  _repeat : Z;
  _backtrack : option Z;
  _first_time : Z
}.

Definition set_backtrack (c : t) (b : option Z) : t :=
  {| _threshold := _threshold c; _relation := _relation c;
     _repeat := _repeat c; _backtrack := b; _first_time := _first_time c |}.

(** The [repeat] argument: a bool, or a number of seconds. *)
Inductive repeat_arg : Set :=
| RepeatBool (b : bool)
| RepeatSec (n : Z).

(** [__init__(self, model, relation, threshold, repeat=False, first_time=0)] *)
Definition __init__ (relation : relation_arg) (threshold : Z)
    (repeat : repeat_arg) (first_time : Z) : result t :=
  let rep :=
    match repeat with
    | RepeatBool true => 86400
    | RepeatBool false => 0
    | RepeatSec n => n
    end in
  let mk r := Ok {| _threshold := threshold; _relation := r; _repeat := rep;
                    _backtrack := Some 0; _first_time := first_time |} in
  match relation with
  | RelNone => mk 0
  | RelUfunc np_equal => mk 0
  | RelUfunc np_less | RelUfunc np_less_equal => mk (-1)
  | RelUfunc np_greater | RelUfunc np_greater_equal => mk 1
  | RelUfunc np_not_equal => Raise ValueError
  | RelStr s =>
      if str_in s ["at"; "="]%string then mk 0
      else if str_in s ["before"; "below"; "<"; "<="]%string then mk (-1)
      else if str_in s ["after"; "above"; ">"; ">="]%string then mk 1
      else Raise ValueError
  end.

(** [evaluate(self)] *)
Definition evaluate (model : WaterNetworkModel) (c : t) : bool * t :=
  let cur_time := sim_time model in
  let prev_time := prev_sim_time model in
  let reduce := negb (_repeat c =? 0) && (cur_time >? _threshold c) in
  let cur_time' :=
    if reduce then (cur_time - _threshold c) mod _repeat c else cur_time in
  let prev_time' :=
    if reduce then (prev_time - _threshold c) mod _repeat c else prev_time in
  let cur_time := cur_time' in
  let prev_time := prev_time' in
  if (_relation c =? 0) && ((prev_time <? _threshold c) && (_threshold c <=? cur_time))
  then (true, set_backtrack c (Some (cur_time - _threshold c)))
  else if (_relation c =? 1) && (cur_time >=? _threshold c) && (prev_time <? _threshold c)
  then (true, set_backtrack c (Some (cur_time - _threshold c)))
  else if (_relation c =? 1) && (cur_time >=? _threshold c) && (prev_time >=? _threshold c)
  then (true, set_backtrack c (Some 0))
  else if (_relation c =? -1) && (cur_time >=? _threshold c) && (prev_time <? _threshold c)
  then (false, set_backtrack c (Some (cur_time - _threshold c)))
  else if (_relation c =? 1) && (cur_time >=? _threshold c) && (prev_time >=? _threshold c)
  then (false, set_backtrack c (Some 0))
  else (false, set_backtrack c (Some 0)).

End SimTimeCondition.

(** A run of the simulation clock: each step's [prev_sim_time] is the
    previous cursor value.  [steps t0 ts] pairs every cursor value of [ts]
    with its predecessor, starting from [t0]. *)
Fixpoint steps (t0 : Z) (ts : list Z) : list (Z * Z) :=
  match ts with
  | [] => []
  | t :: ts' => (t0, t) :: steps t ts'
  end.

Definition sim_clock (step : Z * Z) : WaterNetworkModel :=
  {| sim_time := snd step; prev_sim_time := fst step;
     shifted_time := snd step; prev_shifted_time := fst step |}.

(** The condition is evaluated once per step, keeping its updated state;
    the result lists, per step, the cursor value and the truth value. *)
Fixpoint run_SimTime (c : SimTimeCondition.t) (ss : list (Z * Z)) : list (Z * bool) :=
  match ss with
  | [] => []
  | s :: ss' =>
      let '(b, c') := SimTimeCondition.evaluate (sim_clock s) c in
      (snd s, b) :: run_SimTime c' ss'
  end.

(** ** Python values and objects *)

(** Attribute values: [None], booleans, ints, floats (finite doubles, by
    their exact values) and strings. *)
Inductive value : Set :=
| VNone
| VBool (b : bool)
| VInt (z : Z)
| VFloat (q : Q)
| VStr (s : string).

(** The numeric reading of a value ([bool] is a subclass of [int]). *)
Definition num_of (v : value) : option Q :=
  match v with
  | VInt z => Some (inject_Z z)
  | VFloat q => Some q
  | VBool b => Some (if b then 1%Q else 0%Q)
  | _ => None
  end.

(** Python's [==] on values. *)
Definition py_eq (v1 v2 : value) : bool :=
  match v1, v2 with
  | VNone, VNone => true
  | VStr s1, VStr s2 => String.eqb s1 s2
  | _, _ =>
      match num_of v1, num_of v2 with
      | Some q1, Some q2 => Qeq_bool q1 q2
      | _, _ => false
      end
  end.

(** [wntr.network.LinkStatus] is declared outside this module; its members
    are ints, with the codes below, and are compared here with ints and
    with one another, by their codes. *)
Module LinkStatus.
Definition closed : value := VInt 0.
Definition opened : value := VInt 1.
Definition active : value := VInt 2.
End LinkStatus.

(** The classes of [wntr.network] that the module tests objects against;
    [Pipe], [Pump] and [Valve] derive from [Link]. *)
Inductive pyclass : Set :=
| Junction
| Tank
| Reservoir
| Pipe
| Pump
| Valve
| OtherClass.

#[global] Instance pyclass_eq_dec : EqDecision pyclass.
Proof. solve_decision. Defined.

Definition isinstance_Link (c : pyclass) : bool :=
  match c with
  | Pipe | Pump | Valve => true
  | _ => false
  end.

Record PyObj : Set := {
  obj_class : pyclass;
  obj_attrs : gmap string value
}.

(** Object identities, and the heap of network elements. *)
Abbreviation loc := nat (only parsing).
Abbreviation heap := (gmap nat PyObj) (only parsing).

Definition hasattr (h : heap) (l : loc) (a : string) : bool :=
  match h !! l with
  | Some o => bool_decide (is_Some (obj_attrs o !! a))
  | None => false
  end.

Definition getattr (h : heap) (l : loc) (a : string) : result value :=
  match h !! l with
  | Some o =>
      match obj_attrs o !! a with
      | Some v => Ok v
      | None => Raise AttributeError
      end
  | None => Raise AttributeError
  end.

Definition setattr (h : heap) (l : loc) (a : string) (v : value) : heap :=
  match h !! l with
  | Some o => <[l := {| obj_class := obj_class o; obj_attrs := <[a := v]> (obj_attrs o) |}]> h
  | None => h
  end.

Definition class_of (h : heap) (l : loc) : option pyclass :=
  obj_class <$> h !! l.

(** ** Floats *)

(** The double nearest to the positive rational [n / d], ties to even, as
    a mantissa [m <= 2^53] and an exponent [e >= -1074] with value
    [m * 2^e]; below [2^-1022] the doubles are [2^-1074] apart. *)
Definition nearest_double (n d : positive) : Z * Z :=
  let k := Z.log2 (Zpos n) - Z.log2 (Zpos d) in
  let at_least :=
    if 0 <=? k then Zpos d * 2 ^ k <=? Zpos n else Zpos d <=? Zpos n * 2 ^ (- k) in
  let lg := if at_least then k else k - 1 in
  let e := Z.max (lg - 52) (-1074) in
  let N := Zpos n * 2 ^ Z.max 0 (- e) in
  let D := Zpos d * 2 ^ Z.max 0 e in
  let m := N / D in
  let r := N mod D in
  (if (D <? 2 * r) || ((D =? 2 * r) && Z.odd m) then m + 1 else m, e).

(** The value [m * 2^e]. *)
Definition scaled (me : Z * Z) : Q := (inject_Z (fst me) * 2 ^ snd me)%Q.

(** A rational rounded to a double, as a value. *)
Definition round64 (q : Q) : Q :=
  match Qnum q with
  | Z0 => 0%Q
  | Zpos n => scaled (nearest_double n (Qden q))
  | Zneg n => (- scaled (nearest_double n (Qden q)))%Q
  end.

(** The same as a float of the kernel; it is the float of that value
    when the rational is a double, and an infinity when the rounded value
    is beyond the largest double. *)
Definition ldexp (me : Z * Z) : PrimFloat.float :=
  FloatOps.Z.ldexp (PrimFloat.of_uint63 (Uint63.of_Z (fst me))) (snd me).

Definition to_double (q : Q) : PrimFloat.float :=
  match Qnum q with
  | Z0 => PrimFloat.zero
  | Zpos n => ldexp (nearest_double n (Qden q))
  | Zneg n => PrimFloat.opp (ldexp (nearest_double n (Qden q)))
  end.

(** What a float of the kernel stands for. *)
Inductive exact_value : Set :=
| Exactly (q : Q)
| Infinity (negative : bool)
| NotANumber.

Definition exact_of (f : PrimFloat.float) : exact_value :=
  match FloatOps.Prim2SF f with
  | SpecFloat.S754_zero _ => Exactly 0
  | SpecFloat.S754_infinity s => Infinity s
  | SpecFloat.S754_nan => NotANumber
  | SpecFloat.S754_finite s m e =>
      Exactly (if s then - scaled (Zpos m, e) else scaled (Zpos m, e))
  end.

Definition exact_compare (a b : exact_value) : option comparison :=
  match a, b with
  | NotANumber, _ | _, NotANumber => None
  | Exactly p, Exactly q => Some (p ?= q)%Q
  | Exactly _, Infinity negative => Some (if negative then Gt else Lt)
  | Infinity negative, Exactly _ => Some (if negative then Lt else Gt)
  | Infinity n1, Infinity n2 =>
      Some (if eqb n1 n2 then Eq else if n1 then Lt else Gt)
  end.

(** [math.floor(x)] of a float: an int, [OverflowError] for an infinity
    and [ValueError] for NaN. *)
Definition math_floor (f : PrimFloat.float) : result Z :=
  match exact_of f with
  | Exactly q => Ok (Qfloor q)
  | Infinity _ => Raise OverflowError
  | NotANumber => Raise ValueError
  end.

(** [math.pi], the double nearest to pi. *)
Definition math_pi : Q := (884279719003555 # 281474976710656)%Q.

(** ** Numbers in arithmetic *)

(** The operands and results of Python's arithmetic: ints and floats
    ([bool] is a subclass of [int]). *)
Inductive pynum : Set :=
| PInt (z : Z)
| PFloat (f : PrimFloat.float).

(** An attribute value as an operand of [-], [*], [/], [**], [abs] and of
    a comparison with a number, and as an operand of [+] next to a
    number: [None] and a string raise [TypeError] there. *)
Definition number (v : value) : result pynum :=
  match v with
  | VInt z => Ok (PInt z)
  | VBool b => Ok (PInt (if b then 1 else 0))
  | VFloat q => Ok (PFloat (to_double q))
  | _ => Raise TypeError
  end.

(** The conversion of an int that meets a float: the nearest double, or
    [OverflowError] when there is none. *)
Definition float_of_int (z : Z) : result PrimFloat.float :=
  let f := to_double (inject_Z z) in
  if PrimFloat.is_infinity f then Raise OverflowError else Ok f.

(** The same conversion of an attribute value, as a value. *)
Definition py_float (v : value) : result Q :=
  match v with
  | VInt z => _ ← float_of_int z; Ok (round64 (inject_Z z))
  | VBool b => Ok (if b then 1%Q else 0%Q)
  | VFloat q => Ok q
  | _ => Raise TypeError
  end.

Definition to_float (n : pynum) : result PrimFloat.float :=
  match n with
  | PInt z => float_of_int z
  | PFloat f => Ok f
  end.

Definition arith (int_op : Z -> Z -> Z)
    (float_op : PrimFloat.float -> PrimFloat.float -> PrimFloat.float)
    (a b : pynum) : result pynum :=
  match a, b with
  | PInt x, PInt y => Ok (PInt (int_op x y))
  | _, _ => x ← to_float a; y ← to_float b; Ok (PFloat (float_op x y))
  end.

(** [a + b], [a - b], [a * b] *)
Definition num_add : pynum -> pynum -> result pynum := arith Z.add PrimFloat.add.
Definition num_sub : pynum -> pynum -> result pynum := arith Z.sub PrimFloat.sub.
Definition num_mul : pynum -> pynum -> result pynum := arith Z.mul PrimFloat.mul.

(** [a + b] on two attribute values: the sum of two numbers, and the
    concatenation of two strings, with which no arithmetic goes on. *)
Inductive sum_value : Set :=
| Sum (n : pynum)
| Concat (s : string).

Definition py_add (a b : value) : result sum_value :=
  match a, b with
  | VStr s1, VStr s2 => Ok (Concat (s1 ++ s2))
  | _, _ => x ← number a; y ← number b; n ← num_add x y; Ok (Sum n)
  end.

Definition summand (s : sum_value) : result pynum :=
  match s with
  | Sum n => Ok n
  | Concat _ => Raise TypeError
  end.

(** [a / b]: the quotient of two ints is the double nearest to it. *)
Definition num_truediv (a b : pynum) : result pynum :=
  match a, b with
  | PInt x, PInt y =>
      if y =? 0 then Raise ZeroDivisionError
      else
        let f := to_double (inject_Z x / inject_Z y) in
        if PrimFloat.is_infinity f then Raise OverflowError else Ok (PFloat f)
  | _, _ =>
      x ← to_float a; y ← to_float b;
      if PrimFloat.is_zero y then Raise ZeroDivisionError
      else Ok (PFloat (PrimFloat.div x y))
  end.

(** [a ** 2]: for a float the C library's [pow(a, 2.0)], taken to be the
    rounded product; a finite float whose square overflows raises
    [OverflowError]. *)
Definition num_pow2 (a : pynum) : result pynum :=
  match a with
  | PInt x => Ok (PInt (x * x))
  | PFloat x =>
      let r := PrimFloat.mul x x in
      if PrimFloat.is_infinity r && negb (PrimFloat.is_infinity x)
      then Raise OverflowError
      else Ok (PFloat r)
  end.

(** [abs(a)] and [-a] *)
Definition num_abs (a : pynum) : pynum :=
  match a with
  | PInt x => PInt (Z.abs x)
  | PFloat x => PFloat (PrimFloat.abs x)
  end.

Definition exact_of_num (a : pynum) : exact_value :=
  match a with
  | PInt x => Exactly (inject_Z x)
  | PFloat x => exact_of x
  end.

(** Python's [a < b]; an int and a float are compared by their exact
    values.  [a > b] is [b < a]. *)
Definition num_lt (a b : pynum) : bool :=
  match a, b with
  | PInt x, PInt y => x <? y
  | PFloat x, PFloat y => PrimFloat.ltb x y
  | _, _ =>
      match exact_compare (exact_of_num a) (exact_of_num b) with
      | Some Lt => true
      | _ => false
      end
  end.

(** ** numpy's comparisons *)

Definition Qlt_bool (a b : Q) : bool := negb (Qle_bool b a).

(** A numpy comparison applied to two finite floats, by their values. *)
Definition ufunc_apply (f : ufunc) (a b : Q) : bool :=
  match f with
  | np_equal => Qeq_bool a b
  | np_not_equal => negb (Qeq_bool a b)
  | np_less => Qlt_bool a b
  | np_greater => Qlt_bool b a
  | np_less_equal => Qle_bool a b
  | np_greater_equal => Qle_bool b a
  end.

(** The same applied to two floats of the kernel. *)
Definition float_apply (f : ufunc) (x y : PrimFloat.float) : bool :=
  match f with
  | np_equal => PrimFloat.eqb x y
  | np_not_equal => negb (PrimFloat.eqb x y)
  | np_less => PrimFloat.ltb x y
  | np_greater => PrimFloat.ltb y x
  | np_less_equal => PrimFloat.leb x y
  | np_greater_equal => PrimFloat.leb y x
  end.

(** And to two exact values, as Python compares an int and a float. *)
Definition exact_apply (f : ufunc) (a b : exact_value) : bool :=
  let c := exact_compare a b in
  match f with
  | np_equal => bool_decide (c = Some Eq)
  | np_not_equal => negb (bool_decide (c = Some Eq))
  | np_less => bool_decide (c = Some Lt)
  | np_greater => bool_decide (c = Some Gt)
  | np_less_equal => bool_decide (c = Some Lt) || bool_decide (c = Some Eq)
  | np_greater_equal => bool_decide (c = Some Gt) || bool_decide (c = Some Eq)
  end.

(** numpy holds a Python int as an [int64] or, from [2^63] on, as a
    [uint64]; a larger int stays a Python object. *)
Definition fits_int64 (z : Z) : bool := (- 2 ^ 63 <=? z) && (z <? 2 ^ 64).

(** The value with which numpy compares an int to a float: the nearest
    double when the int fits, the int itself when it stays an object. *)
Definition np_float64 (z : Z) : Q :=
  if fits_int64 z then round64 (inject_Z z) else inject_Z z.

(** The value of a number that is compared to a float; anything that is
    not a number raises [TypeError]. *)
Definition as_float (v : value) : result Q :=
  match v with
  | VInt z => Ok (np_float64 z)
  | VBool b => Ok (if b then 1%Q else 0%Q)
  | VFloat q => Ok q
  | _ => Raise TypeError
  end.

Definition getattr_float (h : heap) (l : loc) (a : string) : result Q :=
  v ← getattr h l a; as_float v.

(** The int behind an int or a bool. *)
Definition as_int (v : value) : option Z :=
  match v with
  | VInt z => Some z
  | VBool b => Some (if b then 1 else 0)
  | _ => None
  end.

(** A numpy comparison applied to two attribute values.  Two ints are
    compared as ints, an int and a float as floats.  [None] is held as an
    object: [np.equal] and [np.not_equal] compare it with [==], the
    order comparisons raise [TypeError].  A string has no comparison with
    a number ([TypeError]). *)
Definition np_call (f : ufunc) (a b : value) : result bool :=
  match a, b with
  | VStr _, _ | _, VStr _ => Raise TypeError
  | VNone, _ | _, VNone =>
      match f with
      | np_equal => Ok (py_eq a b)
      | np_not_equal => Ok (negb (py_eq a b))
      | _ => Raise TypeError
      end
  | _, _ =>
      match as_int a, as_int b with
      | Some x, Some y => Ok (ufunc_apply f (inject_Z x) (inject_Z y))
      | _, _ => x ← as_float a; y ← as_float b; Ok (ufunc_apply f x y)
      end
  end.

(** The same applied to an attribute value and a float threshold. *)
Definition ufunc_call (f : ufunc) (v : value) (t : Q) : result bool :=
  np_call f v (VFloat t).

(** And to two numbers of which one is a computed float. *)
Definition np_num (f : ufunc) (a b : pynum) : bool :=
  match a, b with
  | PInt x, PInt y => ufunc_apply f (inject_Z x) (inject_Z y)
  | PFloat x, PFloat y => float_apply f x y
  | PInt x, PFloat y =>
      if fits_int64 x then float_apply f (to_double (inject_Z x)) y
      else exact_apply f (Exactly (inject_Z x)) (exact_of y)
  | PFloat x, PInt y =>
      if fits_int64 y then float_apply f x (to_double (inject_Z y))
      else exact_apply f (exact_of x) (Exactly (inject_Z y))
  end.

(** ** Control actions *)

(** The state that running an action can change: the heap, and the trace
    of the actions whose [RunControlAction] was entered (a record kept by
    the model, to state which actions were invoked). *)
Record World : Set := {
  objects : gmap nat PyObj;
  invoked : list (option nat * string * value)
}.

Module ControlAction.

Record t : Set := {
  _target_obj_ref : option nat;
  _attribute : string;
  _value : value
}.

Definition key (a : t) : option nat * string * value :=
  (_target_obj_ref a, _attribute a, _value a).

(** [__init__(self, target_obj, attribute, value)] *)
Definition __init__ (h : heap) (target_obj : option nat) (attribute : string)
    (v : value) : result t :=
  match target_obj with
  | None => Raise ValueError
  | Some l =>
      if hasattr h l attribute
      then Ok {| _target_obj_ref := target_obj; _attribute := attribute; _value := v |}
      else Raise ValueError
  end.

(** The literal [1e-10]: the double nearest to it. *)
Definition tolerance : Q := round64 (1 # 10000000000).

(** [__eq__(self, other)]: the values of two actions are compared with a
    tolerance when [self._value] is a float.  The difference of two
    finite doubles is their exact difference rounded to a double; where
    the source's difference is an infinity the rounded value here is
    beyond the largest double, and both fail the test. *)
Definition __eq__ (a b : t) : result bool :=
  if bool_decide (_target_obj_ref a = _target_obj_ref b) && String.eqb (_attribute a) (_attribute b)
  then
    match _value a with
    | VFloat x =>
        y ← py_float (_value b);
        Ok (Qlt_bool (Qabs (round64 (x - y))) tolerance)
    | _ => Ok (py_eq (_value a) (_value b))
    end
  else Ok false.

(** [_RunControlActionImpl(self, control_name)] on the heap: the triple
    (change flag, changed (object, attribute), previous value) and the
    heap afterwards. *)
Definition _RunControlActionImpl (a : t) (control_name : string) (h : heap)
    : result (bool * option (nat * string) * option value * gmap nat PyObj) :=
  match _target_obj_ref a with
  | None => Raise ValueError
  | Some target =>
      if negb (hasattr h target (_attribute a)) then Raise ValueError
      else
        orig_value ← getattr h target (_attribute a);
        if py_eq orig_value (_value a)
        then Ok (false, None, None, h)
        else Ok (true, Some (target, _attribute a), Some orig_value,
                 setattr h target (_attribute a) (_value a))
  end.

(** [RunControlAction(self, control_name)] *)
Definition RunControlAction (a : t) (control_name : string) (w : World)
    : result (bool * option (nat * string) * option value * World) :=
  let w1 := {| objects := objects w; invoked := invoked w ++ [key a] |} in
  '(flag, change, orig, h) ← _RunControlActionImpl a control_name (objects w1);
  Ok (flag, change, orig, {| objects := h; invoked := invoked w1 |}).

End ControlAction.

(** ** Value conditions *)

(** [str.upper] and [str.strip]. *)
Definition upper_ascii (c : ascii) : ascii :=
  let n := nat_of_ascii c in
  if (Nat.leb 97 n && Nat.leb n 122)%bool then ascii_of_nat (n - 32) else c.

Fixpoint upper (s : string) : string :=
  match s with
  | EmptyString => EmptyString
  | String c s' => String (upper_ascii c) (upper s')
  end.

(** The characters that [str.strip] removes: tab to carriage return, the
    four separators 28 to 31, and the space. *)
Definition is_space (c : ascii) : bool :=
  let n := nat_of_ascii c in
  (Nat.leb 9 n && Nat.leb n 13)%bool || (Nat.leb 28 n && Nat.leb n 32)%bool.

Fixpoint lstrip (s : string) : string :=
  match s with
  | EmptyString => EmptyString
  | String c s' => if is_space c then lstrip s' else s
  end.

Fixpoint rstrip (s : string) : string :=
  match s with
  | EmptyString => EmptyString
  | String c s' =>
      match rstrip s' with
      | EmptyString => if is_space c then EmptyString else String c EmptyString
      | r => String c r
      end
  end.

Definition strip (s : string) : string := rstrip (lstrip s).

(** A float threshold; [NaN] is what [np.isnan] tests for. *)
Inductive pyfloat : Set :=
| Finite (q : Q)
| NaN.

(** What the interpreter supplies and the module only calls: the hash of
    a string, the default [str] of an object that has no [name], and the
    text that [format] produces for a value and for a float. *)
Class PyRuntime : Type := {
  hash : string -> Z;
  str_object : nat -> string;
  format_value : value -> string;
  format_float : pyfloat -> string
}.

(** A Python object of a class of this module: its identity and its
    fields. *)
Record object (A : Type) : Type := {
  py_id : nat;
  self : A
}.

Arguments py_id {A} o.
Arguments self {A} o.

(** [ControlCondition._parse_relation(rel)]: a ufunc and anything that is
    not a string are returned as they are. *)
Definition _parse_relation (rel : relation_arg) : result (option ufunc) :=
  match rel with
  | RelUfunc f => Ok (Some f)
  | RelNone => Ok None
  | RelStr rel =>
      let rel := strip (upper rel) in
      if str_in rel ["="; "IS"]%string then Ok (Some np_equal)
      else if str_in rel ["<>"; "NOT"]%string then Ok (Some np_not_equal)
      else if str_in rel ["<"; "BELOW"; "BEFORE"]%string then Ok (Some np_less)
      else if str_in rel [">"; "ABOVE"; "AFTER"]%string then Ok (Some np_greater)
      else if String.eqb rel "<=" then Ok (Some np_less_equal)
      else if String.eqb rel ">=" then Ok (Some np_greater_equal)
      else Raise ValueError
  end.

(** [ControlCondition._relation_to_str(rel)], on what [_parse_relation]
    returns. *)
Definition _relation_to_str (rel : option ufunc) : string :=
  match rel with
  | Some np_equal => "="
  | Some np_not_equal => "<>"
  | Some np_less => "<"
  | Some np_greater => ">"
  | Some np_less_equal => "<="
  | Some np_greater_equal => ">="
  | None => "None"
  end.

Module ValueCondition.

Record t : Set := {
  _source_obj : nat;
  _source_attr : string;
  _relation : option ufunc;
  _threshold : pyfloat;
  _backtrack : option Z
}.

(** [__init__(self, source_obj, source_attr, relation, threshold)] *)
Definition __init__ (source_obj : nat) (source_attr : string)
    (relation : relation_arg) (threshold : pyfloat) : result t :=
  rel ← _parse_relation relation;
  Ok {| _source_obj := source_obj; _source_attr := source_attr;
        _relation := rel; _threshold := threshold; _backtrack := Some 0 |}.

(** The [name] property. *)
Definition name `{PyRuntime} (h : heap) (c : t) : string :=
  let obj :=
    match getattr h (_source_obj c) "name" with
    | Ok v => format_value v
    | Raise _ => str_object (_source_obj c)
    end in
  (obj ++ ":" ++ _source_attr c ++ "_" ++ _relation_to_str (_relation c)
       ++ "_" ++ format_float (_threshold c))%string.

(** [ControlCondition.__hash__(self)], inherited. *)
Definition __hash__ `{PyRuntime} (h : heap) (c : object t) : Z :=
  hash (name h (self c)).

(** No class of the condition hierarchy defines [__eq__]: [==] on two
    conditions is the default of [object], the comparison of
    identities. *)
Definition __eq__ (c1 c2 : object t) : bool :=
  Nat.eqb (py_id c1) (py_id c2).

(** [evaluate(self)] *)
Definition evaluate (h : heap) (c : t) : result bool :=
  cur_value ← getattr h (_source_obj c) (_source_attr c);
  let '(relation, thresh_value) :=
    match _threshold c with
    | NaN => (Some np_greater, 0%Q)
    | Finite q => (_relation c, q)
    end in
  match relation with
  | Some f => ufunc_call f cur_value thresh_value
  | None => Raise TypeError
  end.

End ValueCondition.

Module RelativeCondition.

Record t : Set := {
  _source_obj : nat;
  _source_attr : string;
  _relation : option ufunc;
  _threshold_obj : nat;
  _threshold_attr : string;
  _backtrack : option Z
}.

(** [evaluate(self)] *)
Definition evaluate (h : heap) (c : t) : result bool :=
  cur_value ← getattr h (_source_obj c) (_source_attr c);
  thresh_value ← getattr h (_threshold_obj c) (_threshold_attr c);
  match _relation c with
  | Some f => np_call f cur_value thresh_value
  | None => Raise TypeError
  end.

End RelativeCondition.

(** ** Python sets of objects *)

(** A set holds [x] once per class of "same hash, and identical or equal";
    it is modelled by the list of its members in insertion order. *)
Section PySet.

Context {A : Type}.
Variable hash_of : object A -> Z.
Variable eq_of : object A -> object A -> bool.

Definition same_member (x y : object A) : bool :=
  (hash_of x =? hash_of y) && (Nat.eqb (py_id x) (py_id y) || eq_of x y).

Definition set_add (s : list (object A)) (x : object A) : list (object A) :=
  if existsb (same_member x) s then s else s ++ [x].

Definition set_of (l : list (object A)) : list (object A) :=
  fold_left set_add l [].

End PySet.

(** ** Combined conditions *)

Inductive ControlCondition : Set :=
| TimeOfDay (c : TimeOfDayCondition.t)
| SimTime (c : SimTimeCondition.t)
| Value (c : ValueCondition.t)
| Relative (c : RelativeCondition.t)
| OrCondition (_condition_1 _condition_2 : ControlCondition)
| AndCondition (_condition_1 _condition_2 : ControlCondition).

(** [np.max] of a list of backtracks.  A list that holds [None] becomes an
    array of objects, whose maximum is taken with Python's [>=] on the
    elements; that comparison raises [TypeError] when an operand is
    [None]. *)
Fixpoint np_max_from (acc : option Z) (l : list (option Z)) : result (option Z) :=
  match l with
  | [] => Ok acc
  | x :: l' =>
      match acc, x with
      | Some a, Some b => np_max_from (Some (Z.max a b)) l'
      | _, _ => Raise TypeError
      end
  end.

Definition np_max (l : list (option Z)) : result (option Z) :=
  match l with
  | [] => Raise ValueError
  | x :: l' => np_max_from x l'
  end.

(** The [backtrack] property: the field for the simple conditions, and
    [np.max([self._condition_1.backtrack, self._condition_2.backtrack])]
    for [OrCondition] and [AndCondition]. *)
Fixpoint backtrack (c : ControlCondition) : result (option Z) :=
  match c with
  | TimeOfDay c => Ok (TimeOfDayCondition._backtrack c)
  | SimTime c => Ok (SimTimeCondition._backtrack c)
  | Value c => Ok (ValueCondition._backtrack c)
  | Relative c => Ok (RelativeCondition._backtrack c)
  | OrCondition c1 c2 =>
      b1 ← backtrack c1; b2 ← backtrack c2; np_max [b1; b2]
  | AndCondition c1 c2 =>
      b1 ← backtrack c1; b2 ← backtrack c2; np_max [b1; b2]
  end.

(** ** Controls *)

(** The result of [RunControlAction]: change flag, changed
    (object, attribute), previous value. *)
Abbreviation change := (bool * option (nat * string) * option value)%type (only parsing).

(** The priority that [TimeControl] and [ConditionalControl] derive from
    their action: 3 for an action that closes a link, 0 otherwise. *)
Definition action_priority (h : heap) (a : ControlAction.t) : Z :=
  let is_link :=
    match ControlAction._target_obj_ref a with
    | Some l =>
        match class_of h l with
        | Some c => isinstance_Link c
        | None => false
        end
    | None => false
    end in
  if is_link && String.eqb (ControlAction._attribute a) "status"
       && py_eq (ControlAction._value a) LinkStatus.opened
  then 0
  else if is_link && String.eqb (ControlAction._attribute a) "status"
            && py_eq (ControlAction._value a) LinkStatus.closed
  then 3
  else 0.

Module TimeControl.

Record t : Set := {
  name : string;
  _priority : Z;
  _run_at_time : Z;
  _time_flag : string;
  _daily_flag : bool;
  _control_action : option ControlAction.t
}.

(** [__init__(self, wnm, run_at_time, time_flag, daily_flag, control_action)];
    a [control_action] that is [None] fails on the first attribute
    access. *)
Definition __init__ (wnm : WaterNetworkModel) (h : heap) (run_at_time : Z)
    (time_flag : string) (daily_flag : bool)
    (control_action : option ControlAction.t) : result t :=
  match control_action with
  | None => Raise AttributeError
  | Some a =>
      let priority := action_priority h a in
      if negb (String.eqb time_flag "SIM_TIME") && negb (String.eqb time_flag "SHIFTED_TIME")
      then Raise ValueError
      else if daily_flag && (run_at_time >? 24 * 3600)
      then Raise ValueError
      else if String.eqb time_flag "SIM_TIME" && (run_at_time <? sim_time wnm)
      then Raise RuntimeError
      else
        let run_at_time' :=
          if String.eqb time_flag "SHIFTED_TIME" && (run_at_time <? shifted_time wnm)
          then run_at_time + 24 * 3600
          else run_at_time in
        Ok {| name := "blah"; _priority := priority;
              _run_at_time := run_at_time'; _time_flag := time_flag;
              _daily_flag := daily_flag; _control_action := control_action |}
  end.

(** [_IsControlActionRequiredImpl(self, wnm, presolve_flag)] *)
Definition _IsControlActionRequiredImpl (c : t) (wnm : WaterNetworkModel)
    (presolve_flag : bool) : bool * option Z :=
  if negb presolve_flag then (false, None)
  else if String.eqb (_time_flag c) "SIM_TIME" then
    if (prev_sim_time wnm <? _run_at_time c) && (_run_at_time c <=? sim_time wnm)
    then (true, Some (sim_time wnm - _run_at_time c))
    else (false, None)
  else if String.eqb (_time_flag c) "SHIFTED_TIME" then
    if (prev_shifted_time wnm <? _run_at_time c) && (_run_at_time c <=? shifted_time wnm)
    then (true, Some (shifted_time wnm - _run_at_time c))
    else (false, None)
  else (false, None).

(** [_RunControlActionImpl(self, wnm, priority)] *)
Definition _RunControlActionImpl (c : t) (w : World) (priority : Z)
    : result (change * t * World) :=
  match _control_action c with
  | None => Raise ValueError
  | Some a =>
      if negb (_priority c =? priority) then Ok (false, None, None, c, w)
      else
        '(change_flag, change_tuple, orig_value, w') ←
          ControlAction.RunControlAction a (name c) w;
        let c' :=
          if _daily_flag c
          then {| name := name c; _priority := _priority c;
                  _run_at_time := _run_at_time c + 24 * 3600;
                  _time_flag := _time_flag c; _daily_flag := _daily_flag c;
                  _control_action := _control_action c |}
          else c in
        Ok (change_flag, change_tuple, orig_value, c', w')
  end.

End TimeControl.

Module ConditionalControl.

Record t : Set := {
  name : string;
  _priority : Z;
  _partial_step_for_tanks : bool;
  _source_obj : nat;
  _source_attr : string;
  _operation : ufunc;
  _control_action : ControlAction.t;
  _threshold : Q
}.

(** [__init__(self, source, operation, threshold, control_action)], for
    a [source] that is a tuple and a [threshold] that is a float. *)
Definition __init__ (h : heap) (source : nat * string) (operation : ufunc)
    (threshold : Q) (control_action : ControlAction.t) : t :=
  {| name := "blah"; _priority := action_priority h control_action;
     _partial_step_for_tanks := true;
     _source_obj := fst source; _source_attr := snd source;
     _operation := operation; _control_action := control_action;
     _threshold := threshold |}.

(** [math.floor(a)] *)
Definition num_floor (a : pynum) : result Z :=
  match a with
  | PInt x => Ok x
  | PFloat x => math_floor x
  end.

(** The presolve branch for a tank's head after time zero; every
    operation is the source's, in its order. *)
Definition presolve_tank_head (c : t) (wnm : WaterNetworkModel) (h : heap)
    : result (bool * option Z) :=
  val ← getattr h (_source_obj c) (_source_attr c);
  q_net ← getattr h (_source_obj c) "prev_demand";
  q ← number q_net;
  inflow ← num_mul (PFloat (to_double 4)) q;
  volume ← num_mul inflow (PInt (sim_time wnm - prev_sim_time wnm));
  diameter ← getattr h (_source_obj c) "diameter";
  d ← number diameter;
  d2 ← num_pow2 d;
  area ← num_mul (PFloat (to_double math_pi)) d2;
  delta_h ← num_truediv volume area;
  v ← number val;
  next_val ← num_add v delta_h;
  let threshold := PFloat (to_double (_threshold c)) in
  if np_num (_operation c) next_val threshold && np_num (_operation c) v threshold
  then Ok (false, None)
  else if np_num (_operation c) next_val threshold then
    rise ← num_sub next_val v;
    m ← num_truediv rise (PInt (sim_time wnm - prev_sim_time wnm));
    run ← num_mul m (PInt (sim_time wnm));
    b ← num_sub next_val run;
    gap ← num_sub threshold b;
    new_t ← num_truediv gap m;
    back ← num_sub (PInt (sim_time wnm)) new_t;
    d ← num_floor back;
    Ok (true, Some d)
  else Ok (false, None).

(** The direct comparison of the attribute with the threshold. *)
Definition compare_now (c : t) (h : heap) : result (bool * option Z) :=
  val ← getattr h (_source_obj c) (_source_attr c);
  r ← ufunc_call (_operation c) val (_threshold c);
  if (r : bool) then Ok (true, Some 0) else Ok (false, None).

(** [_IsControlActionRequiredImpl(self, wnm, presolve_flag)].  The guard
    of the second branch is [type(self._source_obj == wntr.network.Tank)],
    the type of a comparison result, which is a class and so always
    true. *)
Definition _IsControlActionRequiredImpl (c : t) (wnm : WaterNetworkModel)
    (h : heap) (presolve_flag : bool) : result (bool * option Z) :=
  if bool_decide (class_of h (_source_obj c) = Some Tank)
     && String.eqb (_source_attr c) "head"
     && negb (sim_time wnm =? 0) && _partial_step_for_tanks c
  then
    if presolve_flag then presolve_tank_head c wnm h
    else compare_now c h
  else if true && String.eqb (_source_attr c) "head"
          && (sim_time wnm =? 0) && _partial_step_for_tanks c
  then
    if presolve_flag then compare_now c h
    else Ok (false, None)
  else if presolve_flag then Ok (false, None)
  else compare_now c h.

(** [_RunControlActionImpl(self, wnm, priority)] *)
Definition _RunControlActionImpl (c : t) (w : World) (priority : Z)
    : result (change * t * World) :=
  if negb (_priority c =? priority) then Ok (false, None, None, c, w)
  else
    '(change_flag, change_tuple, orig_value, w') ←
      ControlAction.RunControlAction (_control_action c) (name c) w;
    Ok (change_flag, change_tuple, orig_value, c, w').

End ConditionalControl.

Module MultiConditionalControl.

(** An entry of the threshold list: a float, or an (object, attribute)
    pair read when the control is evaluated. *)
Inductive threshold_item : Set :=
| ThresholdFloat (q : Q)
| ThresholdAttr (obj : nat) (attr : string).

Record t : Set := {
  _source : list (nat * string);
  _relation : list ufunc;
  _control_action : ControlAction.t;
  _threshold : list threshold_item
}.

(** Set once by [__init__]. *)
Definition name (c : t) : string := "blah".
Definition _priority (c : t) : Z := 0.

(** [__init__(self, source, operation, threshold, control_action)], for
    arguments that are lists. *)
Definition __init__ (source : list (nat * string)) (operation : list ufunc)
    (threshold : list threshold_item) (control_action : ControlAction.t) : result t :=
  if negb (Nat.eqb (length source) (length operation)) then Raise ValueError
  else if negb (Nat.eqb (length source) (length threshold)) then Raise ValueError
  else Ok {| _source := source; _relation := operation;
             _control_action := control_action; _threshold := threshold |}.

Definition index {A : Type} (l : list A) (ndx : nat) : result A :=
  match l !! ndx with
  | Some x => Ok x
  | None => Raise IndexError
  end.

(** The threshold of a term: the float of the list, or the attribute as
    it is read. *)
Definition threshold_value (h : heap) (thr : threshold_item) : result value :=
  match thr with
  | ThresholdFloat q => Ok (VFloat q)
  | ThresholdAttr o a => getattr h o a
  end.

(** The loop over [range(len(self._source))]: [true] when no term
    stopped it; a source that is [None] stops it before the comparison. *)
Fixpoint loop (c : t) (h : heap) (ndxs : list nat) : result bool :=
  match ndxs with
  | [] => Ok true
  | ndx :: rest =>
      src ← index (_source c) ndx;
      src_val ← getattr h (fst src) (snd src);
      oper ← index (_relation c) ndx;
      thr ← index (_threshold c) ndx;
      threshold_val ← threshold_value h thr;
      match src_val with
      | VNone => Ok false
      | _ =>
          r ← np_call oper src_val threshold_val;
          if (r : bool) then loop c h rest else Ok false
      end
  end.

(** [_IsControlActionRequiredImpl(self, wnm, presolve_flag)] *)
Definition _IsControlActionRequiredImpl (c : t) (h : heap) (presolve_flag : bool)
    : result (bool * option Z) :=
  if presolve_flag then Ok (false, None)
  else
    action_required ← loop c h (seq 0 (length (_source c)));
    if (action_required : bool) then Ok (true, Some 0) else Ok (false, None).

(** [_RunControlActionImpl(self, wnm, priority)] *)
Definition _RunControlActionImpl (c : t) (w : World) (priority : Z)
    : result (change * t * World) :=
  if negb (_priority c =? priority) then Ok (false, None, None, c, w)
  else
    '(change_flag, change_tuple, orig_value, w') ←
      ControlAction.RunControlAction (_control_action c) (name c) w;
    Ok (change_flag, change_tuple, orig_value, c, w').

End MultiConditionalControl.

Module _CheckValveHeadControl.

(** The fields as [__init__] leaves them; [_start_node] and [_end_node]
    are the nodes that the model returns for the names of the link's
    ends, [_pump_A] the first head-curve coefficient of a pump that has
    a head curve. *)
Record t : Set := {
  _cv : nat;
  _relation : ufunc;
  _threshold : Q;
  _control_action : ControlAction.t;
  _start_node : nat;
  _end_node : nat;
  _pump_A : option Q
}.

Definition name (c : t) : string := "blah".
Definition _priority (c : t) : Z := 3.

(** [_IsControlActionRequiredImpl(self, wnm, presolve_flag)] *)
Definition _IsControlActionRequiredImpl (c : t) (h : heap) (presolve_flag : bool)
    : result (bool * option Z) :=
  if presolve_flag then Ok (false, None)
  else
    headloss ←
      match _pump_A c with
      | Some A =>
          hs ← getattr h (_start_node c) "head";
          s ← number hs;
          lifted ← num_add s (PFloat (to_double A));
          he ← getattr h (_end_node c) "head";
          e ← number he;
          num_sub lifted e
      | None =>
          if bool_decide (class_of h (_cv c) = Some Pump) then
            he ← getattr h (_end_node c) "head";
            hs ← getattr h (_start_node c) "head";
            e ← number he;
            s ← number hs;
            num_sub e s
          else
            hs ← getattr h (_start_node c) "head";
            he ← getattr h (_end_node c) "head";
            s ← number hs;
            e ← number he;
            num_sub s e
      end;
    if np_num (_relation c) headloss (PFloat (to_double (_threshold c)))
    then Ok (true, Some 0)
    else Ok (false, None).

(** [_RunControlActionImpl(self, wnm, priority)] *)
Definition _RunControlActionImpl (c : t) (w : World) (priority : Z)
    : result (change * t * World) :=
  if negb (_priority c =? priority) then Ok (false, None, None, c, w)
  else
    '(change_flag, change_tuple, orig_value, w') ←
      ControlAction.RunControlAction (_control_action c) (name c) w;
    Ok (change_flag, change_tuple, orig_value, c, w').

End _CheckValveHeadControl.

Module _PRVControl.

(** The fields as [__init__] leaves them, [_action_to_run] starting as
    [None]; [_resistance_coefficient] is computed there from the valve's
    diameter. *)
Record t : Set := {
  _valve : nat;
  _Htol : Q;
  _Qtol : Q;
  _close_control_action : ControlAction.t;
  _open_control_action : ControlAction.t;
  _active_control_action : ControlAction.t;
  _action_to_run : option ControlAction.t;
  _start_node : nat;
  _end_node : nat;
  _resistance_coefficient : Q
}.

Definition name (c : t) : string := "blah".
Definition _priority (c : t) : Z := 3.

Definition select (c : t) (a : ControlAction.t) : t :=
  {| _valve := _valve c; _Htol := _Htol c; _Qtol := _Qtol c;
     _close_control_action := _close_control_action c;
     _open_control_action := _open_control_action c;
     _active_control_action := _active_control_action c;
     _action_to_run := Some a;
     _start_node := _start_node c; _end_node := _end_node c;
     _resistance_coefficient := _resistance_coefficient c |}.

(** [self._resistance_coefficient*abs(self._valve.flow)**2] *)
Definition headloss (c : t) (h : heap) : result pynum :=
  flow ← getattr h (_valve c) "flow";
  f ← number flow;
  f2 ← num_pow2 (num_abs f);
  num_mul (PFloat (to_double (_resistance_coefficient c))) f2.

(** [self._valve.flow < -self._Qtol] *)
Definition reverse_flow (c : t) (h : heap) : result bool :=
  flow ← getattr h (_valve c) "flow";
  f ← number flow;
  Ok (num_lt f (PFloat (PrimFloat.opp (to_double (_Qtol c))))).

(** [_IsControlActionRequiredImpl(self, wnm, presolve_flag)]: the pair
    returned, or [None] when the function ends without a [return], and
    the control with [_action_to_run] updated.  The second operand of an
    [and] is evaluated when the first holds. *)
Definition _IsControlActionRequiredImpl (c : t) (h : heap) (presolve_flag : bool)
    : result (option (bool * option Z) * t) :=
  if presolve_flag then Ok (Some (false, None), c)
  else
    setting ← getattr h (_valve c) "setting";
    elevation ← getattr h (_end_node c) "elevation";
    head_setting ← py_add setting elevation;
    let Htol := PFloat (to_double (_Htol c)) in
    status ← getattr h (_valve c) "_status";
    if py_eq status LinkStatus.active then
      reverse ← reverse_flow c h;
      if (reverse : bool) then Ok (Some (true, Some 0), select c (_close_control_action c))
      else
        Hl ← headloss c h;
        start_head ← getattr h (_start_node c) "head";
        hs ← summand head_setting;
        above ← num_add hs Hl;
        bound ← num_sub above Htol;
        up ← number start_head;
        if num_lt up bound
        then Ok (Some (true, Some 0), select c (_open_control_action c))
        else Ok (Some (false, None), c)
    else if py_eq status LinkStatus.opened then
      reverse ← reverse_flow c h;
      if (reverse : bool) then Ok (Some (true, Some 0), select c (_close_control_action c))
      else
        Hl ← headloss c h;
        start_head ← getattr h (_start_node c) "head";
        hs ← summand head_setting;
        above ← num_add hs Hl;
        bound ← num_add above Htol;
        up ← number start_head;
        if num_lt bound up
        then Ok (Some (true, Some 0), select c (_active_control_action c))
        else Ok (Some (false, None), c)
    else if py_eq status LinkStatus.closed then
      start_head ← getattr h (_start_node c) "head";
      end_head ← getattr h (_end_node c) "head";
      down ← number end_head;
      floor_head ← num_add down Htol;
      up ← number start_head;
      if num_lt floor_head up then
        hs ← summand head_setting;
        bound ← num_sub hs Htol;
        if num_lt up bound
        then Ok (Some (true, Some 0), select c (_open_control_action c))
        else if num_lt down bound
        then Ok (Some (true, Some 0), select c (_active_control_action c))
        else Ok (Some (false, None), c)
      else Ok (Some (false, None), c)
    else Ok (None, c).

(** [_RunControlActionImpl(self, wnm, priority)] *)
Definition _RunControlActionImpl (c : t) (w : World) (priority : Z)
    : result (change * t * World) :=
  if negb (_priority c =? priority) then Ok (false, None, None, c, w)
  else
    match _action_to_run c with
    | None => Raise AttributeError
    | Some a =>
        '(change_flag, change_tuple, orig_value, w') ←
          ControlAction.RunControlAction a (name c) w;
        Ok (change_flag, change_tuple, orig_value, c, w')
    end.

End _PRVControl.

(** The controls of the module, and the dispatch of the two methods of
    the base class [Control] to the implementations. *)
Inductive Control : Set :=
| ATimeControl (c : TimeControl.t)
| AConditionalControl (c : ConditionalControl.t)
| AMultiConditionalControl (c : MultiConditionalControl.t)
| ACheckValveHeadControl (c : _CheckValveHeadControl.t)
| APRVControl (c : _PRVControl.t).

Definition priority_of (c : Control) : Z :=
  match c with
  | ATimeControl c => TimeControl._priority c
  | AConditionalControl c => ConditionalControl._priority c
  | AMultiConditionalControl c => MultiConditionalControl._priority c
  | ACheckValveHeadControl c => _CheckValveHeadControl._priority c
  | APRVControl c => _PRVControl._priority c
  end.

Definition lift {A : Set} (inj : A -> Control) (r : result (change * A * World))
    : result (change * Control * World) :=
  '(ch, c, w) ← r; Ok (ch, inj c, w).

(** [Control.RunControlAction(self, wnm, priority)] *)
Definition RunControlAction (c : Control) (w : World) (priority : Z)
    : result (change * Control * World) :=
  match c with
  | ATimeControl c => lift ATimeControl (TimeControl._RunControlActionImpl c w priority)
  | AConditionalControl c =>
      lift AConditionalControl (ConditionalControl._RunControlActionImpl c w priority)
  | AMultiConditionalControl c =>
      lift AMultiConditionalControl (MultiConditionalControl._RunControlActionImpl c w priority)
  | ACheckValveHeadControl c =>
      lift ACheckValveHeadControl (_CheckValveHeadControl._RunControlActionImpl c w priority)
  | APRVControl c => lift APRVControl (_PRVControl._RunControlActionImpl c w priority)
  end.

(** A set of value conditions, as Python builds it from their [__hash__]
    and [__eq__]. *)
Definition condition_set `{PyRuntime} (h : heap) (l : list (object ValueCondition.t))
    : list (object ValueCondition.t) :=
  set_of (ValueCondition.__hash__ h) ValueCondition.__eq__ l.

(** ** Times as text *)

(** [str] of an int, and the format [{:02d}]: two digits for 0 to 9, the
    plain decimal otherwise. *)
Definition str_int (z : Z) : string := NilZero.string_of_int (Z.to_int z).

Definition format_02d (z : Z) : string :=
  if (0 <=? z) && (z <? 10) then ("0" ++ str_int z)%string else str_int z.

(** [ControlCondition._time_relation_to_str(rel)], on the codes that the
    time conditions store. *)
Definition _time_relation_to_str (rel : Z) : string :=
  if rel =? 0 then "at"
  else if rel =? -1 then "before"
  else if rel =? 1 then "after"
  else str_int rel.

(** [ControlCondition._sec_to_hours_min_sec(value)].  [int(sec / 3600.)]
    divides in doubles and truncates towards zero; for a whole number of
    seconds below [2^40] in size (some 34 000 years) the double quotient
    truncates to the quotient of the integers, [Z.quot], which is what
    stands for it here and in the two functions that follow. *)
Definition _sec_to_hours_min_sec (value : Z) : string :=
  let sec := value in
  let hours := Z.quot sec 3600 in
  let sec := sec - hours * 3600 in
  let mm := Z.quot sec 60 in
  let sec := sec - mm * 60 in
  (format_02d hours ++ ":" ++ format_02d mm ++ ":" ++ format_02d sec)%string.

(** [ControlCondition._sec_to_days_hours_min_sec(value)] *)
Definition _sec_to_days_hours_min_sec (value : Z) : string :=
  let sec := value in
  let days := Z.quot sec 86400 in
  let sec := sec - days * 86400 in
  let hours := Z.quot sec 3600 in
  let sec := sec - hours * 3600 in
  let mm := Z.quot sec 60 in
  let sec := sec - mm * 60 in
  if days >? 0
  then (str_int days ++ "-" ++ format_02d hours ++ ":" ++ format_02d mm
          ++ ":" ++ format_02d sec)%string
  else (format_02d hours ++ ":" ++ format_02d mm ++ ":" ++ format_02d sec)%string.

(** [ControlCondition._sec_to_clock(value)] *)
Definition _sec_to_clock (value : Z) : string :=
  let sec := value in
  let hours := Z.quot sec 3600 in
  let sec := sec - hours * 3600 in
  let mm := Z.quot sec 60 in
  let sec := sec - mm * 60 in
  let '(pm, hours) :=
    if hours >=? 12 then ("PM"%string, hours)
    else if hours =? 0 then ("AM"%string, 12)
    else ("AM"%string, hours) in
  (str_int hours ++ ":" ++ format_02d mm ++ ":" ++ format_02d sec ++ " " ++ pm)%string.

(** ** The simple conditions under a combined condition *)

(** The backtracks of the simple conditions of a condition, left to
    right. *)
Fixpoint leaf_backtracks (c : ControlCondition) : list (option Z) :=
  match c with
  | TimeOfDay c => [TimeOfDayCondition._backtrack c]
  | SimTime c => [SimTimeCondition._backtrack c]
  | Value c => [ValueCondition._backtrack c]
  | Relative c => [RelativeCondition._backtrack c]
  | OrCondition c1 c2 => leaf_backtracks c1 ++ leaf_backtracks c2
  | AndCondition c1 c2 => leaf_backtracks c1 ++ leaf_backtracks c2
  end.

Definition is_combined (c : ControlCondition) : bool :=
  match c with
  | OrCondition _ _ | AndCondition _ _ => true
  | _ => false
  end.

(** ** The log of changes *)

(** A Python dict keyed by values: the entries in insertion order, keys
    compared with [==]; assigning to a key that is present keeps its
    place. *)
Section PyDict.

Context {V : Type}.

Fixpoint dict_get (d : list (value * V)) (k : value) : option V :=
  match d with
  | [] => None
  | (k', v) :: d' => if py_eq k' k then Some v else dict_get d' k
  end.

Definition dict_contains (d : list (value * V)) (k : value) : bool :=
  match dict_get d k with
  | Some _ => true
  | None => false
  end.

Fixpoint dict_set (d : list (value * V)) (k : value) (v : V) : list (value * V) :=
  match d with
  | [] => [(k, v)]
  | (k', v') :: d' =>
      if py_eq k' k then (k', v) :: d' else (k', v') :: dict_set d' k v
  end.

Definition dict_keys (d : list (value * V)) : list value := map fst d.

End PyDict.

Module ControlLogger.

(** [changed_objects] maps an object's name to the object,
    [changed_attributes] maps it to the attributes recorded for it. *)
Record t : Type := {
  changed_objects : list (value * nat);
  changed_attributes : list (value * list string)
}.

(** What [add] can raise: [AttributeError] for an object without a
    [name], [KeyError] for a name that [changed_attributes] lacks. *)
Inductive error : Set :=
| NoName
| KeyError.

(** [__init__(self)] and [reset(self)] *)
Definition __init__ : t :=
  {| changed_objects := []; changed_attributes := [] |}.

Definition reset (self : t) : t :=
  {| changed_objects := []; changed_attributes := [] |}.

(** [add(self, obj, attr)] *)
Definition add (self : t) (h : heap) (obj : nat) (attr : string) : t + error :=
  match getattr h obj "name" with
  | Raise _ => inr NoName
  | Ok name =>
      if dict_contains (changed_objects self) name then
        match dict_get (changed_attributes self) name with
        | Some l =>
            inl {| changed_objects := changed_objects self;
                   changed_attributes :=
                     dict_set (changed_attributes self) name (l ++ [attr]) |}
        | None => inr KeyError
        end
      else
        inl {| changed_objects := dict_set (changed_objects self) name obj;
               changed_attributes := dict_set (changed_attributes self) name [attr] |}
  end.

(** A run of [add] calls, stopping at the first that raises. *)
Fixpoint add_all (self : t) (h : heap) (calls : list (nat * string)) : t + error :=
  match calls with
  | [] => inl self
  | (obj, attr) :: rest =>
      match add self h obj attr with
      | inl self' => add_all self' h rest
      | inr e => inr e
      end
  end.

End ControlLogger.

(** The attributes of the calls of a run of [add] whose object bears the
    given name, in the order of the calls. *)
Fixpoint recorded (h : heap) (name : value) (calls : list (nat * string)) : list string :=
  match calls with
  | [] => []
  | (obj, attr) :: rest =>
      match getattr h obj "name" with
      | Ok n => if py_eq n name then attr :: recorded h name rest else recorded h name rest
      | Raise _ => recorded h name rest
      end
  end.

(** ** What the properties are stated with *)

(** The meaning of a numpy comparison. *)
Definition ufunc_holds (f : ufunc) (a b : Q) : Prop :=
  match f with
  | np_equal => (a == b)%Q
  | np_not_equal => ~ (a == b)%Q
  | np_less => (a < b)%Q
  | np_greater => (b < a)%Q
  | np_less_equal => (a <= b)%Q
  | np_greater_equal => (b <= a)%Q
  end.

(** The term [ndx] of a multi-conditional control holds on a heap: its
    source attribute is not [None], and the term's comparison of it with
    the threshold of the term gives true. *)
Definition term_holds (c : MultiConditionalControl.t) (h : heap) (ndx : nat) : Prop :=
  exists src oper thr src_val thr_val,
    MultiConditionalControl._source c !! ndx = Some src
    /\ MultiConditionalControl._relation c !! ndx = Some oper
    /\ MultiConditionalControl._threshold c !! ndx = Some thr
    /\ getattr h (fst src) (snd src) = Ok src_val
    /\ MultiConditionalControl.threshold_value h thr = Ok thr_val
    /\ src_val <> VNone
    /\ np_call oper src_val thr_val = Ok true.

(** Two values of the same kind: two floats, or two ints (the members of
    [LinkStatus] are ints).  On such a pair Python's [==] is the equality
    of the numbers. *)
Definition same_kind (a b : value) : Prop :=
  match a, b with
  | VFloat _, VFloat _ | VInt _, VInt _ => True
  | _, _ => False
  end.

(** The same check-valve control with the two end nodes exchanged. *)
Definition exchange_nodes (c : _CheckValveHeadControl.t) (cv : nat) : _CheckValveHeadControl.t :=
  {| _CheckValveHeadControl._cv := cv;
     _CheckValveHeadControl._relation := _CheckValveHeadControl._relation c;
     _CheckValveHeadControl._threshold := _CheckValveHeadControl._threshold c;
     _CheckValveHeadControl._control_action := _CheckValveHeadControl._control_action c;
     _CheckValveHeadControl._start_node := _CheckValveHeadControl._end_node c;
     _CheckValveHeadControl._end_node := _CheckValveHeadControl._start_node c;
     _CheckValveHeadControl._pump_A := _CheckValveHeadControl._pump_A c |}.

(** The comparison that holds of [(b, a)] when the given one holds of
    [(a, b)]. *)
Definition mirror (f : ufunc) : ufunc :=
  match f with
  | np_equal => np_equal
  | np_not_equal => np_not_equal
  | np_less => np_greater
  | np_greater => np_less
  | np_less_equal => np_greater_equal
  | np_greater_equal => np_less_equal
  end.

(** The relative condition read from the other side. *)
Definition RelativeCondition_mirror (c : RelativeCondition.t) : RelativeCondition.t :=
  {| RelativeCondition._source_obj := RelativeCondition._threshold_obj c;
     RelativeCondition._source_attr := RelativeCondition._threshold_attr c;
     RelativeCondition._relation := mirror <$> RelativeCondition._relation c;
     RelativeCondition._threshold_obj := RelativeCondition._source_obj c;
     RelativeCondition._threshold_attr := RelativeCondition._source_attr c;
     RelativeCondition._backtrack := RelativeCondition._backtrack c |}.

(** The clock a number of whole days later. *)
Definition days_later (k : Z) (m : WaterNetworkModel) : WaterNetworkModel :=
  {| sim_time := sim_time m + k * 86400;
     prev_sim_time := prev_sim_time m + k * 86400;
     shifted_time := shifted_time m + k * 86400;
     prev_shifted_time := prev_shifted_time m + k * 86400 |}.

(** A time control holds an action: [__init__] reads the action's fields
    before anything else, and running the control keeps the action. *)
Definition action_bound (c : Control) : Prop :=
  match c with
  | ATimeControl t => is_Some (TimeControl._control_action t)
  | _ => True
  end.

(** ** Sample networks, conditions and controls *)

Definition sample_valve (setting : Q) : PyObj :=
  {| obj_class := Valve;
     obj_attrs := {[ "setting"%string := VFloat setting ]} |}.

Definition set_setting_to_1 : ControlAction.t :=
  {| ControlAction._target_obj_ref := Some 0%nat;
     ControlAction._attribute := "setting";
     ControlAction._value := VFloat 1 |}.

(** A tank with the given head, net inflow of the last step and
    diameter. *)
Definition sample_tank (head prev_demand diameter : Q) : PyObj :=
  {| obj_class := Tank;
     obj_attrs := {[ "head"%string := VFloat head;
                     "prev_demand"%string := VFloat prev_demand;
                     "diameter"%string := VFloat diameter ]} |}.

Definition close_pipe_1 : ControlAction.t :=
  {| ControlAction._target_obj_ref := Some 1%nat;
     ControlAction._attribute := "status";
     ControlAction._value := LinkStatus.closed |}.


(** A tank of diameter 5 whose head, at 5, rises by a little under
    0.5008 over a step of 3600 s. *)
Definition rounding_tank_heap : gmap nat PyObj :=
  {[ 0%nat := sample_tank 5 (6288211335136391 # 1152921504606846976) 5 ]}.

(** A wide tank: head 22.94, net inflow 0.41795837995045637 and diameter
    20.2, as the doubles that these decimals denote. *)
Definition wide_tank_heap : gmap nat PyObj :=
  {[ 0%nat := sample_tank (round64 (2294 # 100))
                (round64 (41795837995045637 # 100000000000000000))
                (round64 (202 # 10)) ]}.

Definition wide_tank_threshold : Q := round64 (27635079145826182 # 1000000000000000).

Definition first_hour : WaterNetworkModel :=
  {| sim_time := 3600; prev_sim_time := 0; shifted_time := 3600; prev_shifted_time := 0 |}.

(** A network of a valve (object 0) between a start node (1) and an end
    node (2). *)
Definition valve_heap (status : value) (setting flow start_head end_head elevation : Q)
    : gmap nat PyObj :=
  {[ 0%nat := {| obj_class := Valve;
                 obj_attrs := {[ "setting"%string := VFloat setting;
                                 "_status"%string := status;
                                 "flow"%string := VFloat flow ]} |};
     1%nat := {| obj_class := Junction;
                 obj_attrs := {[ "head"%string := VFloat start_head ]} |};
     2%nat := {| obj_class := Junction;
                 obj_attrs := {[ "head"%string := VFloat end_head;
                                 "elevation"%string := VFloat elevation ]} |} ]}.

Definition valve_action (status : value) : ControlAction.t :=
  {| ControlAction._target_obj_ref := Some 0%nat;
     ControlAction._attribute := "_status";
     ControlAction._value := status |}.

Definition sample_prv (Htol Qtol : Q) : _PRVControl.t :=
  {| _PRVControl._valve := 0%nat;
     _PRVControl._Htol := Htol;
     _PRVControl._Qtol := Qtol;
     _PRVControl._close_control_action := valve_action LinkStatus.closed;
     _PRVControl._open_control_action := valve_action LinkStatus.opened;
     _PRVControl._active_control_action := valve_action LinkStatus.active;
     _PRVControl._action_to_run := None;
     _PRVControl._start_node := 1%nat;
     _PRVControl._end_node := 2%nat;
     _PRVControl._resistance_coefficient := 1 # 10 |}.

Definition open_pipe_1 : ControlAction.t :=
  {| ControlAction._target_obj_ref := Some 1%nat;
     ControlAction._attribute := "status";
     ControlAction._value := LinkStatus.opened |}.

Definition pipe_heap : gmap nat PyObj :=
  {[ 1%nat := {| obj_class := Pipe;
                 obj_attrs := {[ "status"%string := LinkStatus.closed ]} |} ]}.

Definition third_hour : WaterNetworkModel :=
  {| sim_time := 7200; prev_sim_time := 3600;
     shifted_time := 7200; prev_shifted_time := 3600 |}.

Definition close_pipe_at_7200 : TimeControl.t :=
  {| TimeControl.name := "blah";
     TimeControl._priority := 3;
     TimeControl._run_at_time := 7200;
     TimeControl._time_flag := "SIM_TIME";
     TimeControl._daily_flag := true;
     TimeControl._control_action := Some close_pipe_1 |}.

Definition open_pipe_world : World :=
  {| objects := {[ 1%nat := {| obj_class := Pipe;
                               obj_attrs := {[ "status"%string := LinkStatus.opened ]} |} ]};
     invoked := [] |}.

Definition daily_at_6 : TimeOfDayCondition.t :=
  {| TimeOfDayCondition._threshold := 21600;
     TimeOfDayCondition._relation := 0;
     TimeOfDayCondition._first_day := 0;
     TimeOfDayCondition._repeat := true;
     TimeOfDayCondition._backtrack := Some 0 |}.

Definition once_at_7200 : SimTimeCondition.t :=
  {| SimTimeCondition._threshold := 7200;
     SimTimeCondition._relation := 0;
     SimTimeCondition._repeat := 0;
     SimTimeCondition._backtrack := Some 0;
     SimTimeCondition._first_time := 0 |}.

(** A runtime for the examples: strings hash to their length, objects and
    values print as fixed texts. *)
Definition sample_runtime : PyRuntime :=
  {| hash := fun s => Z.of_nat (String.length s);
     str_object := fun _ => "<object>"%string;
     format_value := fun v => match v with VStr s => s | _ => "?"%string end;
     format_float := fun _ => "3.0"%string |}.

Definition named_tank_heap : gmap nat PyObj :=
  {[ 0%nat := {| obj_class := Tank;
                 obj_attrs := {[ "name"%string := VStr "tank1";
                                 "level"%string := VFloat 4 ]} |} ]}.

Definition junction_heap : gmap nat PyObj :=
  {[ 0%nat := {| obj_class := Junction;
                 obj_attrs := {[ "head"%string := VFloat 12 ]} |} ]}.

Definition time_zero : WaterNetworkModel :=
  {| sim_time := 0; prev_sim_time := 0; shifted_time := 0; prev_shifted_time := 0 |}.

(** The start node's head is above the end node's. *)
Definition start_above_end : RelativeCondition.t :=
  {| RelativeCondition._source_obj := 1%nat; RelativeCondition._source_attr := "head";
     RelativeCondition._relation := Some np_greater;
     RelativeCondition._threshold_obj := 2%nat;
     RelativeCondition._threshold_attr := "head";
     RelativeCondition._backtrack := Some 0 |}.

(** A junction whose head is the int [2^53 + 1], and the condition that
    the head is above the float [2^53]. *)
Definition big_head_heap : gmap nat PyObj :=
  {[ 0%nat := {| obj_class := Junction;
                 obj_attrs := {[ "head"%string := VInt (2 ^ 53 + 1) ]} |} ]}.

Definition head_above_2_53 : ValueCondition.t :=
  {| ValueCondition._source_obj := 0%nat; ValueCondition._source_attr := "head";
     ValueCondition._relation := Some np_greater;
     ValueCondition._threshold := Finite (inject_Z (2 ^ 53));
     ValueCondition._backtrack := Some 0 |}.

Definition level_at_least_3 : ValueCondition.t :=
  {| ValueCondition._source_obj := 0%nat; ValueCondition._source_attr := "level";
     ValueCondition._relation := Some np_greater_equal;
     ValueCondition._threshold := Finite 3; ValueCondition._backtrack := Some 0 |}.

Definition once_at_1800 (relation : Z) : SimTimeCondition.t :=
  {| SimTimeCondition._threshold := 1800; SimTimeCondition._relation := relation;
     SimTimeCondition._repeat := 0; SimTimeCondition._backtrack := Some 0;
     SimTimeCondition._first_time := 0 |}.

Definition noon_step : WaterNetworkModel :=
  {| sim_time := 50400; prev_sim_time := 39600;
     shifted_time := 50400; prev_shifted_time := 39600 |}.

Definition open_pipe_daily_at_7200 : TimeControl.t :=
  {| TimeControl.name := "blah";
     TimeControl._priority := 0;
     TimeControl._run_at_time := 7200;
     TimeControl._time_flag := "SHIFTED_TIME";
     TimeControl._daily_flag := true;
     TimeControl._control_action := Some open_pipe_1 |}.

(** A junction (object 1) with a head, and an object (2) whose [level]
    is not set; the control compares the one with the other under [<>]. *)
Definition unset_threshold_heap : gmap nat PyObj :=
  {[ 1%nat := {| obj_class := Junction;
                 obj_attrs := {[ "head"%string := VFloat 10 ]} |};
     2%nat := {| obj_class := Tank;
                 obj_attrs := {[ "level"%string := VNone ]} |} ]}.

Definition unset_threshold_multi : MultiConditionalControl.t :=
  {| MultiConditionalControl._source := [(1%nat, "head"%string)];
     MultiConditionalControl._relation := [np_not_equal];
     MultiConditionalControl._control_action :=
       {| ControlAction._target_obj_ref := Some 1%nat;
          ControlAction._attribute := "head";
          ControlAction._value := VFloat 0 |};
     MultiConditionalControl._threshold :=
       [MultiConditionalControl.ThresholdAttr 2%nat "level"] |}.

Definition sample_multi : MultiConditionalControl.t :=
  {| MultiConditionalControl._source := [(1%nat, "head"%string); (2%nat, "head"%string)];
     MultiConditionalControl._relation := [np_greater; np_less];
     MultiConditionalControl._control_action := open_pipe_1;
     MultiConditionalControl._threshold :=
       [MultiConditionalControl.ThresholdFloat 3;
        MultiConditionalControl.ThresholdAttr 1%nat "head"] |}.

(** A pump (object 0) from node 1, with head 10, to node 2, with head 2. *)
Definition pump_heap : gmap nat PyObj :=
  {[ 0%nat := {| obj_class := Pump; obj_attrs := ∅ |};
     1%nat := {| obj_class := Junction;
                 obj_attrs := {[ "head"%string := VFloat 10 ]} |};
     2%nat := {| obj_class := Junction;
                 obj_attrs := {[ "head"%string := VFloat 2 ]} |} ]}.

Definition sample_pump_control : _CheckValveHeadControl.t :=
  {| _CheckValveHeadControl._cv := 0%nat;
     _CheckValveHeadControl._relation := np_less;
     _CheckValveHeadControl._threshold := - (1 # 1000);
     _CheckValveHeadControl._control_action := valve_action LinkStatus.closed;
     _CheckValveHeadControl._start_node := 1%nat;
     _CheckValveHeadControl._end_node := 2%nat;
     _CheckValveHeadControl._pump_A := None |}.

Definition named_links_heap : gmap nat PyObj :=
  {[ 1%nat := {| obj_class := Pipe;
                 obj_attrs := {[ "name"%string := VStr "pipe1" ]} |};
     2%nat := {| obj_class := Valve;
                 obj_attrs := {[ "name"%string := VStr "valve2" ]} |} ]}.

(** * Properties *)

(** ** Time conditions *)

Lemma SimTime_init_at (threshold : Z) (repeat : SimTimeCondition.repeat_arg) (first_time : Z) :
  exists c, SimTimeCondition.__init__ (RelStr "at") threshold repeat first_time = Ok c
    /\ SimTimeCondition._relation c = 0
    /\ SimTimeCondition._threshold c = threshold.
Proof. eexists. split; [reflexivity | split; reflexivity]. Qed.

(** C1. The periodic "at" condition with threshold 100 and repeat 300,
    evaluated along the cursor values 0, 100, 150, 400, 450, 700, 750,
    is true on the step that ends at 100 and on no other step: the steps
    that end at 400 and at 700 evaluate to false. *)
Theorem periodic_at_fires_only_at_100 :
  exists c,
    SimTimeCondition.__init__ (RelStr "at") 100 (SimTimeCondition.RepeatSec 300) 0 = Ok c
    /\ run_SimTime c (steps 0 [0; 100; 150; 400; 450; 700; 750])
       = [(0, false); (100, true); (150, false); (400, false);
          (450, false); (700, false); (750, false)].
Proof. eexists. split; [reflexivity | vm_compute; reflexivity]. Qed.

(** On a step past the threshold the reduced cursor is compared with the
    threshold once more, so the periodic condition fires on the steps that
    cross [2 * threshold] modulo the period, such as 150 -> 250 here. *)
Lemma periodic_at_fires_at_200 :
  exists c,
    SimTimeCondition.__init__ (RelStr "at") 100 (SimTimeCondition.RepeatSec 300) 0 = Ok c
    /\ run_SimTime c (steps 150 [250; 400; 550]) = [(250, true); (400, false); (550, true)].
Proof. eexists. split; [reflexivity | vm_compute; reflexivity]. Qed.

(** C2. A "before" condition never evaluates to true: every branch of
    either [evaluate] that tests [_relation == -1] returns false, and so
    does the final one.  In particular the daily time-of-day condition
    "before 06:00" is false at 01:00, below its threshold. *)
Theorem before_is_never_true :
  (forall model threshold first_day repeat bt,
      fst (TimeOfDayCondition.evaluate model
             {| TimeOfDayCondition._threshold := threshold;
                TimeOfDayCondition._relation := -1;
                TimeOfDayCondition._first_day := first_day;
                TimeOfDayCondition._repeat := repeat;
                TimeOfDayCondition._backtrack := bt |}) = false)
  /\ (forall model threshold repeat bt first_time,
      fst (SimTimeCondition.evaluate model
             {| SimTimeCondition._threshold := threshold;
                SimTimeCondition._relation := -1;
                SimTimeCondition._repeat := repeat;
                SimTimeCondition._backtrack := bt;
                SimTimeCondition._first_time := first_time |}) = false)
  /\ (exists c,
      TimeOfDayCondition.__init__ (RelStr "before") 21600 true 0 = Ok c
      /\ TimeOfDayCondition._relation c = -1
      /\ TimeOfDayCondition.evaluate
           {| sim_time := 3600; prev_sim_time := 0;
              shifted_time := 3600; prev_shifted_time := 0 |} c
         = (false, TimeOfDayCondition.set_backtrack c None)).
Proof.
  split; [| split].
  - intros model threshold first_day repeat bt.
    unfold TimeOfDayCondition.evaluate; cbn [TimeOfDayCondition._relation].
    match goal with |- fst (if ?b then _ else _) = _ => destruct b end; [reflexivity |].
    change (-1 =? 0) with false; change (-1 =? 1) with false; cbn [andb].
    repeat match goal with |- fst (if ?b then _ else _) = _ => destruct b end;
      reflexivity.
  - intros model threshold repeat bt first_time.
    unfold SimTimeCondition.evaluate; cbn [SimTimeCondition._relation].
    change (-1 =? 0) with false; change (-1 =? 1) with false; cbn [andb].
    repeat match goal with |- fst (if ?b then _ else _) = _ => destruct b end;
      reflexivity.
  - eexists. split; [reflexivity | split; [reflexivity | vm_compute; reflexivity]].
Qed.

(** ** Heap and number lemmas *)

Lemma getattr_hasattr (h : gmap nat PyObj) (l : nat) (a : string) (v : value) :
  getattr h l a = Ok v -> hasattr h l a = true.
Proof.
  unfold getattr, hasattr. destruct (h !! l) as [o|]; [| discriminate].
  destruct (obj_attrs o !! a) eqn:E; [| discriminate].
  intros _. apply bool_decide_eq_true. eauto.
Qed.

Lemma getattr_setattr (h : gmap nat PyObj) (l : nat) (a : string) (v0 v : value) :
  getattr h l a = Ok v0 -> getattr (setattr h l a v) l a = Ok v.
Proof.
  unfold getattr, setattr. destruct (h !! l) as [o|] eqn:E; [| discriminate].
  intros _. rewrite lookup_insert_eq. cbn. by rewrite lookup_insert_eq.
Qed.

Lemma getattr_setattr_other (h : gmap nat PyObj) (l l' : nat) (a a' : string) (v : value) :
  (l, a) <> (l', a') -> getattr (setattr h l a v) l' a' = getattr h l' a'.
Proof.
  intros Hne. unfold getattr, setattr.
  destruct (h !! l) as [o|] eqn:E; [| reflexivity].
  destruct (decide (l = l')) as [<- | Hl].
  - rewrite lookup_insert_eq, E. cbn.
    rewrite lookup_insert_ne; [reflexivity | congruence].
  - by rewrite lookup_insert_ne.
Qed.

Lemma Qlt_bool_iff (a b : Q) : Qlt_bool a b = true <-> (a < b)%Q.
Proof.
  unfold Qlt_bool. rewrite negb_true_iff, <- not_true_iff_false, Qle_bool_iff.
  split; [apply Qnot_le_lt | apply Qlt_not_le].
Qed.

Lemma Qle_bool_proper (a a' b b' : Q) :
  (a == a')%Q -> (b == b')%Q -> Qle_bool a b = Qle_bool a' b'.
Proof.
  intros Ea Eb. apply eq_true_iff_eq. rewrite !Qle_bool_iff. by rewrite Ea, Eb.
Qed.

(** On a number, a comparison with a float threshold is the comparison
    of the number's value as a float with the threshold. *)
Lemma ufunc_call_number (f : ufunc) (v : value) (x t : Q) :
  as_float v = Ok x -> ufunc_call f v t = Ok (ufunc_apply f x t).
Proof.
  unfold ufunc_call, np_call.
  destruct v as [|b|z|q|s]; cbn; try discriminate; by intros [= ->].
Qed.

(** ** Control actions *)

(** For two floats Python's [==] is exact equality of the numbers. *)
Lemma py_eq_floats (x v : Q) : py_eq (VFloat x) (VFloat v) = true <-> (x == v)%Q.
Proof. cbn. apply Qeq_bool_iff. Qed.

(** [ControlAction.__eq__] is where the tolerance of 1e-10 is applied:
    two actions on the same attribute are equal when their float values
    differ by less than it. *)
Lemma ControlAction_eq_tolerance (target : option nat) (attribute : string) (x y : Q) :
  (Qabs (round64 (x - y)) < ControlAction.tolerance)%Q ->
  ControlAction.__eq__
    {| ControlAction._target_obj_ref := target; ControlAction._attribute := attribute;
       ControlAction._value := VFloat x |}
    {| ControlAction._target_obj_ref := target; ControlAction._attribute := attribute;
       ControlAction._value := VFloat y |} = Ok true.
Proof.
  intros H. unfold ControlAction.__eq__.
  cbn [ControlAction._target_obj_ref ControlAction._attribute ControlAction._value].
  rewrite bool_decide_true by reflexivity. rewrite String.eqb_refl.
  cbv [andb py_float mbind result_bind].
  apply Qlt_bool_iff in H. by rewrite H.
Qed.

(** C3, as amended.  Running an action whose target attribute equals the
    new value under Python's [==] reports no change and leaves the heap
    as it is; when the two differ the attribute is set and the change is
    reported with the previous value; and for two floats [==] is exact
    equality, with no tolerance. *)
Theorem run_action_is_noop_when_equal
    (a : ControlAction.t) (control_name : string) (h : gmap nat PyObj)
    (target : nat) (orig : value) :
  ControlAction._target_obj_ref a = Some target ->
  getattr h target (ControlAction._attribute a) = Ok orig ->
  (py_eq orig (ControlAction._value a) = true ->
     ControlAction._RunControlActionImpl a control_name h = Ok (false, None, None, h))
  /\ (py_eq orig (ControlAction._value a) = false ->
     ControlAction._RunControlActionImpl a control_name h
       = Ok (true, Some (target, ControlAction._attribute a), Some orig,
             setattr h target (ControlAction._attribute a) (ControlAction._value a))
     /\ getattr (setattr h target (ControlAction._attribute a) (ControlAction._value a))
          target (ControlAction._attribute a) = Ok (ControlAction._value a))
  /\ (forall x v, orig = VFloat x -> ControlAction._value a = VFloat v ->
        (py_eq orig (ControlAction._value a) = true <-> (x == v)%Q)).
Proof.
  intros Ht Hg. unfold ControlAction._RunControlActionImpl.
  rewrite Ht, (getattr_hasattr _ _ _ _ Hg), Hg. cbn.
  split; [| split].
  - intros ->. reflexivity.
  - intros ->. split; [reflexivity |]. eapply getattr_setattr; eassumption.
  - intros x v -> ->. apply py_eq_floats.
Qed.

Lemma run_action_is_noop_when_equal_witness :
  ControlAction._RunControlActionImpl set_setting_to_1 "blah" {[ 0%nat := sample_valve 1 ]}
  = Ok (false, None, None, {[ 0%nat := sample_valve 1 ]}).
Proof.
  apply (run_action_is_noop_when_equal set_setting_to_1 "blah"
           {[ 0%nat := sample_valve 1 ]} 0%nat (VFloat 1)); reflexivity.
Defined.

(** The claim C3 as stated fails for floats: an attribute that differs
    from the new value by 2^-40, less than 1e-10, is not "already equal";
    running the action reports a change. *)
Lemma run_action_has_no_tolerance :
  ~ (forall (a : ControlAction.t) (control_name : string) (h : gmap nat PyObj)
       (target : nat) (x v : Q),
       ControlAction._target_obj_ref a = Some target ->
       getattr h target (ControlAction._attribute a) = Ok (VFloat x) ->
       ControlAction._value a = VFloat v ->
       (Qabs (x - v) < 1 # 10000000000)%Q ->
       ControlAction._RunControlActionImpl a control_name h = Ok (false, None, None, h)).
Proof.
  intros H.
  specialize (H set_setting_to_1 "blah"%string
                {[ 0%nat := sample_valve (1 + (1 # 1099511627776)) ]} 0%nat
                (1 + (1 # 1099511627776))%Q 1%Q
                eq_refl eq_refl eq_refl eq_refl).
  vm_compute in H. discriminate H.
Qed.

(** ** The tank-head conditional control before the solve *)



(** The rounding of the doubles shows in the backtrack: a tank of
    diameter 5 whose head rises from 5 by a little under 0.5008 over the
    step crosses 5.5 at 1799.3 s in exact arithmetic, and the doubles of
    the source give 1800. *)
Lemma tank_head_presolve_rounds :
  ConditionalControl._IsControlActionRequiredImpl
    (ConditionalControl.__init__ rounding_tank_heap (0%nat, "head"%string)
       np_greater_equal (11 # 2) close_pipe_1)
    first_hour rounding_tank_heap true
  = Ok (true, Some 1800).
Proof. vm_compute. reflexivity. Qed.

(** The backtrack can leave the step: the same computation on a wide
    tank gives -1. *)
Lemma tank_head_presolve_before_step :
  ConditionalControl._IsControlActionRequiredImpl
    (ConditionalControl.__init__ wide_tank_heap (0%nat, "head"%string)
       np_greater_equal wide_tank_threshold close_pipe_1)
    third_hour wide_tank_heap true
  = Ok (true, Some (-1)).
Proof. vm_compute. reflexivity. Qed.


(** ** The valve control in the closed state *)

(** C5. After the solve, for a valve in the closed state whose setting
    and whose nodes' heads and elevation are floats: the open action is
    selected when the upstream head exceeds the downstream head plus
    [Htol] and is below the head setting minus [Htol]; failing that, the
    active action is selected when the upstream head exceeds the
    downstream head plus [Htol] and the downstream head is below the head
    setting minus [Htol]; failing both, no action is required and none is
    selected.  The sums and the comparisons are those of the doubles.
    With upstream head 10, downstream head 2, head setting 8 and [Htol]
    0.01 the active action is selected. *)
Theorem prv_closed_selects_open_then_active :
  (forall (c : _PRVControl.t) (h : gmap nat PyObj)
          (setting elevation start_head end_head : Q),
      let Htol := to_double (_PRVControl._Htol c) in
      let head_setting := PrimFloat.add (to_double setting) (to_double elevation) in
      let above :=
        PrimFloat.ltb (PrimFloat.add (to_double end_head) Htol) (to_double start_head) in
      let opens :=
        above && PrimFloat.ltb (to_double start_head) (PrimFloat.sub head_setting Htol) in
      let activates :=
        above && PrimFloat.ltb (to_double end_head) (PrimFloat.sub head_setting Htol) in
      getattr h (_PRVControl._valve c) "_status" = Ok LinkStatus.closed ->
      getattr h (_PRVControl._valve c) "setting" = Ok (VFloat setting) ->
      getattr h (_PRVControl._end_node c) "elevation" = Ok (VFloat elevation) ->
      getattr h (_PRVControl._start_node c) "head" = Ok (VFloat start_head) ->
      getattr h (_PRVControl._end_node c) "head" = Ok (VFloat end_head) ->
      exists (r : option (bool * option Z)) (c' : _PRVControl.t),
        _PRVControl._IsControlActionRequiredImpl c h false = Ok (r, c')
        /\ (opens = true ->
              r = Some (true, Some 0)
              /\ _PRVControl._action_to_run c' = Some (_PRVControl._open_control_action c))
        /\ (opens = false -> activates = true ->
              r = Some (true, Some 0)
              /\ _PRVControl._action_to_run c' = Some (_PRVControl._active_control_action c))
        /\ (opens = false -> activates = false ->
              r = Some (false, None) /\ c' = c))
  /\ (exists c' : _PRVControl.t,
        _PRVControl._IsControlActionRequiredImpl (sample_prv (1 # 100) (1 # 100))
          (valve_heap LinkStatus.closed 5 0 10 2 3) false
        = Ok (Some (true, Some 0), c')
        /\ _PRVControl._action_to_run c' = Some (valve_action LinkStatus.active)).
Proof.
  split; [| eexists; split; vm_compute; reflexivity].
  intros c h setting elevation start_head end_head Htol head_setting above opens activates
         Hst Hset Hel Hsh Heh.
  unfold _PRVControl._IsControlActionRequiredImpl.
  rewrite Hset, Hel, Hst, Hsh, Heh.
  cbn [mbind result_bind negb py_add summand number num_add num_sub arith to_float num_lt].
  change (py_eq LinkStatus.closed LinkStatus.active) with false.
  change (py_eq LinkStatus.closed LinkStatus.opened) with false.
  change (py_eq LinkStatus.closed LinkStatus.closed) with true.
  cbv iota. fold Htol head_setting above.
  unfold opens, activates.
  destruct above; cbn [andb mbind result_bind];
    [| eexists _, _; split; [reflexivity |]; repeat split; discriminate ].
  destruct (PrimFloat.ltb (to_double start_head) (PrimFloat.sub head_setting Htol));
    [ eexists _, _; split; [reflexivity |]; repeat split; discriminate |].
  destruct (PrimFloat.ltb (to_double end_head) (PrimFloat.sub head_setting Htol));
    eexists _, _; (split; [reflexivity |]); repeat split; discriminate.
Qed.

Lemma prv_closed_selects_open_then_active_witness :
  exists (r : option (bool * option Z)) (c' : _PRVControl.t),
    _PRVControl._IsControlActionRequiredImpl (sample_prv (1 # 100) (1 # 100))
      (valve_heap LinkStatus.closed 5 0 4 2 3) false
    = Ok (r, c')
    /\ r = Some (true, Some 0)
    /\ _PRVControl._action_to_run c' = Some (valve_action LinkStatus.opened).
Proof.
  destruct (proj1 prv_closed_selects_open_then_active
              (sample_prv (1 # 100) (1 # 100))
              (valve_heap LinkStatus.closed 5 0 4 2 3) 5%Q 3%Q 4%Q 2%Q
              eq_refl eq_refl eq_refl eq_refl eq_refl) as (r & c' & Hrun & Hopen & _).
  exists r, c'. split; [exact Hrun |]. apply Hopen. vm_compute. reflexivity.
Defined.

(** The sums are rounded: with upstream head 1.1, downstream head 1.0
    and [Htol] 0.1 the double [1.0 + 0.1] is 1.1, the first test fails
    and no action is required. *)
Lemma prv_closed_rounding_edge :
  _PRVControl._IsControlActionRequiredImpl (sample_prv (1 # 10) (1 # 100))
    (valve_heap LinkStatus.closed 5 0 (round64 (11 # 10)) 1 3) false
  = Ok (Some (false, None), sample_prv (1 # 10) (1 # 100)).
Proof. vm_compute. reflexivity. Qed.

(** ** Construction of time controls *)

(** C6, as amended.  A time control on simulation time whose
    [run_at_time] is before the current simulation time is refused at
    construction with a [RuntimeError]; a one-shot control on shifted
    (clock) time whose [run_at_time] is before the current shifted time is
    constructed, with its [run_at_time] moved 24 hours later. *)
Theorem past_time_control_construction
    (wnm : WaterNetworkModel) (h : gmap nat PyObj) (run_at_time : Z)
    (a : ControlAction.t) :
  (run_at_time < sim_time wnm ->
     TimeControl.__init__ wnm h run_at_time "SIM_TIME" false (Some a) = Raise RuntimeError)
  /\ (run_at_time < shifted_time wnm ->
     TimeControl.__init__ wnm h run_at_time "SHIFTED_TIME" false (Some a)
     = Ok {| TimeControl.name := "blah";
             TimeControl._priority := action_priority h a;
             TimeControl._run_at_time := run_at_time + 86400;
             TimeControl._time_flag := "SHIFTED_TIME";
             TimeControl._daily_flag := false;
             TimeControl._control_action := Some a |}).
Proof.
  unfold TimeControl.__init__. split; intros H; apply Z.ltb_lt in H.
  - change (String.eqb "SIM_TIME" "SIM_TIME") with true.
    cbn [negb andb]. by rewrite H.
  - change (String.eqb "SHIFTED_TIME" "SIM_TIME") with false.
    change (String.eqb "SHIFTED_TIME" "SHIFTED_TIME") with true.
    cbn [negb andb]. by rewrite H.
Qed.

Lemma past_time_control_construction_witness :
  TimeControl.__init__ third_hour pipe_heap 3600 "SIM_TIME" false (Some open_pipe_1)
  = Raise RuntimeError.
Proof.
  apply (proj1 (past_time_control_construction third_hour pipe_heap 3600 open_pipe_1)).
  reflexivity.
Defined.

(** The claim C6 as stated fails for shifted time: the one-shot control
    for 01:00, constructed when the clock stands at 02:00, is not refused. *)
Lemma past_shifted_time_control_is_constructed :
  3600 < shifted_time third_hour
  /\ exists c,
       TimeControl.__init__ third_hour pipe_heap 3600 "SHIFTED_TIME" false (Some open_pipe_1)
       = Ok c
       /\ TimeControl._run_at_time c = 90000
       /\ TimeControl._daily_flag c = false.
Proof.
  split; [reflexivity |]. eexists. split; [reflexivity |]. split; reflexivity.
Qed.

(** ** Running a control at another priority *)

Lemma TimeControl_init_action_bound wnm h run_at_time time_flag daily_flag a c :
  TimeControl.__init__ wnm h run_at_time time_flag daily_flag a = Ok c ->
  action_bound (ATimeControl c).
Proof.
  unfold TimeControl.__init__. destruct a as [a|]; [| discriminate].
  repeat match goal with |- (if ?b then _ else _) = _ -> _ => destruct b end;
    try discriminate; intros [= <-]; cbn; eauto.
Qed.

Lemma RunControlAction_action_bound c w priority ch c' w' :
  action_bound c -> RunControlAction c w priority = Ok (ch, c', w') -> action_bound c'.
Proof.
  destruct c as [t| | | |]; cbn [RunControlAction]; unfold lift; intros Hb H.
  - destruct (TimeControl._RunControlActionImpl t w priority) as [[[ch0 t'] w0]|] eqn:E;
      [| discriminate]. cbn in H. injection H as <- <- <-.
    unfold TimeControl._RunControlActionImpl in E.
    destruct (TimeControl._control_action t) as [a|] eqn:Ea; [| discriminate].
    destruct (negb _) in E.
    + injection E as <- <- <-. cbn. rewrite ?Ea. eauto.
    + destruct (ControlAction.RunControlAction _ _ _) as [[[[f ct] o] w1]|] in E;
        [| discriminate]. cbn in E. injection E as <- <- <-.
      destruct (TimeControl._daily_flag t); cbn; rewrite ?Ea; eauto.
  - destruct (ConditionalControl._RunControlActionImpl _ _ _) as [[[ch0 t'] w0]|];
      [| discriminate]. cbn in H. injection H as <- <- <-. exact I.
  - destruct (MultiConditionalControl._RunControlActionImpl _ _ _) as [[[ch0 t'] w0]|];
      [| discriminate]. cbn in H. injection H as <- <- <-. exact I.
  - destruct (_CheckValveHeadControl._RunControlActionImpl _ _ _) as [[[ch0 t'] w0]|];
      [| discriminate]. cbn in H. injection H as <- <- <-. exact I.
  - destruct (_PRVControl._RunControlActionImpl _ _ _) as [[[ch0 t'] w0]|];
      [| discriminate]. cbn in H. injection H as <- <- <-. exact I.
Qed.

(** C7. Running a control of any of the five kinds at a priority that is
    not its own returns [(False, None, None)] and leaves the control and
    the world as they were: no attribute of any object changes and no
    action's [RunControlAction] is entered. *)
Theorem run_at_other_priority_is_noop (c : Control) (w : World) (priority : Z) :
  action_bound c ->
  priority <> priority_of c ->
  RunControlAction c w priority = Ok (false, None, None, c, w).
Proof.
  intros Hb Hp.
  assert (E : negb (priority_of c =? priority) = true).
  { apply negb_true_iff, Z.eqb_neq. congruence. }
  destruct c as [t|t|t|t|t]; cbn [RunControlAction priority_of] in *.
  - unfold TimeControl._RunControlActionImpl.
    destruct Hb as [a ->]. by rewrite E.
  - unfold ConditionalControl._RunControlActionImpl. by rewrite E.
  - unfold MultiConditionalControl._RunControlActionImpl. by rewrite E.
  - unfold _CheckValveHeadControl._RunControlActionImpl. by rewrite E.
  - unfold _PRVControl._RunControlActionImpl. by rewrite E.
Qed.

Lemma run_at_other_priority_is_noop_witness :
  TimeControl.__init__ third_hour (objects open_pipe_world) 7200 "SIM_TIME" true
    (Some close_pipe_1) = Ok close_pipe_at_7200
  /\ RunControlAction (ATimeControl close_pipe_at_7200) open_pipe_world 0
     = Ok (false, None, None, ATimeControl close_pipe_at_7200, open_pipe_world).
Proof.
  split; [reflexivity |].
  apply run_at_other_priority_is_noop; [cbn; eauto | discriminate].
Defined.

(** At its own priority the same control does run its action: the pipe is
    closed, the action is recorded as invoked and the daily control moves
    to the next day. *)
Lemma run_at_own_priority_runs :
  exists c' w',
    RunControlAction (ATimeControl close_pipe_at_7200) open_pipe_world 3
    = Ok (true, Some (1%nat, "status"%string), Some LinkStatus.opened, ATimeControl c', w')
    /\ TimeControl._run_at_time c' = 93600
    /\ getattr (objects w') 1%nat "status" = Ok LinkStatus.closed
    /\ invoked w' = [ControlAction.key close_pipe_1].
Proof.
  eexists _, _. split; [vm_compute; reflexivity |].
  split; [reflexivity |]. split; reflexivity.
Qed.

(** ** The backtrack of combined conditions *)

(** Where the backtracks of both children are integers, the backtrack of
    their combination is the larger of the two. *)
Lemma backtrack_of_integers (c1 c2 : ControlCondition) (b1 b2 : Z) :
  backtrack c1 = Ok (Some b1) ->
  backtrack c2 = Ok (Some b2) ->
  backtrack (OrCondition c1 c2) = Ok (Some (Z.max b1 b2))
  /\ backtrack (AndCondition c1 c2) = Ok (Some (Z.max b1 b2)).
Proof. intros H1 H2. cbn. rewrite H1, H2. split; reflexivity. Qed.

(** Where a child's backtrack is [None], reading the backtrack of the
    combination raises. *)
Lemma backtrack_of_None_l (c1 c2 : ControlCondition) (b2 : option Z) :
  backtrack c1 = Ok None ->
  backtrack c2 = Ok b2 ->
  backtrack (OrCondition c1 c2) = Raise TypeError
  /\ backtrack (AndCondition c1 c2) = Raise TypeError.
Proof. intros H1 H2. cbn. rewrite H1, H2. split; reflexivity. Qed.

(** C8, at the failing input.  After the step from 0 to 3600 s the
    time-of-day condition "at 06:00" has evaluated to false with backtrack
    [None], the simulation-time condition "at 7200" to false with
    backtrack 0; the backtrack of their [OrCondition] and of their
    [AndCondition] is then not the maximum of the two: reading it raises
    [TypeError]. *)
Theorem combined_backtrack_raises_on_None :
  TimeOfDayCondition.__init__ (RelStr "at") 21600 true 0 = Ok daily_at_6
  /\ SimTimeCondition.__init__ (RelStr "at") 7200 (SimTimeCondition.RepeatBool false) 0
     = Ok once_at_7200
  /\ exists c1 c2,
       TimeOfDayCondition.evaluate first_hour daily_at_6 = (false, c1)
       /\ SimTimeCondition.evaluate first_hour once_at_7200 = (false, c2)
       /\ backtrack (TimeOfDay c1) = Ok None
       /\ backtrack (SimTime c2) = Ok (Some 0)
       /\ backtrack (OrCondition (TimeOfDay c1) (SimTime c2)) = Raise TypeError
       /\ backtrack (AndCondition (TimeOfDay c1) (SimTime c2)) = Raise TypeError.
Proof.
  split; [reflexivity |]. split; [reflexivity |].
  eexists _, _. split; [vm_compute; reflexivity |].
  split; [vm_compute; reflexivity |]. repeat split.
Qed.

(** ** Identity of value conditions *)

(** C9, on the code.  Two distinct condition objects built from the
    same source, attribute, relation and threshold have the same name
    and the same hash, but they do not compare equal, and a set that
    receives both holds two members. *)
Theorem same_value_conditions_differ `{PyRuntime} (h : gmap nat PyObj)
    (source_obj : nat) (source_attr : string) (relation : relation_arg)
    (threshold : pyfloat) (c : ValueCondition.t) (i j : nat) :
  ValueCondition.__init__ source_obj source_attr relation threshold = Ok c ->
  i <> j ->
  let x := {| py_id := i; self := c |} in
  let y := {| py_id := j; self := c |} in
  ValueCondition.name h (self x) = ValueCondition.name h (self y)
  /\ ValueCondition.__hash__ h x = ValueCondition.__hash__ h y
  /\ ValueCondition.__eq__ x y = false
  /\ length (condition_set h [x; y]) = 2%nat.
Proof.
  intros _ Hij x y.
  assert (E : Nat.eqb j i = false) by (apply Nat.eqb_neq; congruence).
  repeat split.
  - unfold ValueCondition.__eq__; cbn. apply Nat.eqb_neq. exact Hij.
  - unfold condition_set, set_of, set_add, same_member, ValueCondition.__eq__; cbn.
    rewrite E. cbn. rewrite andb_false_r. reflexivity.
Qed.

Lemma same_value_conditions_differ_witness :
  exists c,
    ValueCondition.__init__ 0%nat "level" (RelStr ">") (Finite 3) = Ok c
    /\ @ValueCondition.name sample_runtime named_tank_heap c = "tank1:level_>_3.0"%string
    /\ ValueCondition.__eq__ {| py_id := 1; self := c |} {| py_id := 2; self := c |} = false
    /\ length (@condition_set sample_runtime named_tank_heap
                 [ {| py_id := 1; self := c |}; {| py_id := 2; self := c |} ]) = 2%nat.
Proof.
  eexists. split; [reflexivity |]. split; [vm_compute; reflexivity |].
  pose proof (@same_value_conditions_differ sample_runtime named_tank_heap
                0%nat "level"%string (RelStr ">") (Finite 3) _ 1%nat 2%nat
                eq_refl ltac:(discriminate)) as (_ & _ & He & Hs).
  split; [exact He | exact Hs].
Defined.

(** ** The conditional control at time zero *)

(** C10. At simulation time zero, for a control on an attribute named
    "head" of an object of any class: before the solve the result is the
    direct comparison of the attribute with the threshold, with backtrack
    0 when it holds; after the solve it is [(False, None)], whatever the
    attribute holds. *)
Theorem head_control_at_time_zero
    (h : gmap nat PyObj) (wnm : WaterNetworkModel) (source_obj : nat)
    (operation : ufunc) (threshold : Q) (action : ControlAction.t) :
  let c := ConditionalControl.__init__ h (source_obj, "head"%string) operation threshold action in
  sim_time wnm = 0 ->
  (forall v x, getattr h source_obj "head" = Ok v -> as_float v = Ok x ->
     ConditionalControl._IsControlActionRequiredImpl c wnm h true
     = Ok (if ufunc_apply operation x threshold then (true, Some 0) else (false, None)))
  /\ ConditionalControl._IsControlActionRequiredImpl c wnm h false = Ok (false, None).
Proof.
  intros c Ht. unfold ConditionalControl._IsControlActionRequiredImpl, c.
  cbn [ConditionalControl.__init__ ConditionalControl._source_obj
       ConditionalControl._source_attr ConditionalControl._partial_step_for_tanks
       fst snd].
  rewrite Ht. change (String.eqb "head" "head") with true.
  change (0 =? 0) with true. cbn [andb negb]. rewrite andb_false_r.
  split; [| reflexivity].
  intros v x Hv Hx. unfold ConditionalControl.compare_now.
  cbn [ConditionalControl.__init__ ConditionalControl._source_obj
       ConditionalControl._source_attr ConditionalControl._operation
       ConditionalControl._threshold fst snd].
  rewrite Hv. cbn [mbind result_bind].
  rewrite (ufunc_call_number _ _ _ _ Hx). cbn [mbind result_bind].
  destruct (ufunc_apply operation x threshold); reflexivity.
Qed.

Lemma head_control_at_time_zero_witness :
  ConditionalControl._IsControlActionRequiredImpl
    (ConditionalControl.__init__ junction_heap (0%nat, "head"%string) np_greater 10 open_pipe_1)
    time_zero junction_heap true = Ok (true, Some 0)
  /\ ConditionalControl._IsControlActionRequiredImpl
       (ConditionalControl.__init__ junction_heap (0%nat, "head"%string) np_greater 10 open_pipe_1)
       time_zero junction_heap false = Ok (false, None).
Proof.
  pose proof (head_control_at_time_zero junction_heap time_zero 0%nat np_greater 10
                open_pipe_1 eq_refl) as [Hpre Hpost].
  split; [| exact Hpost].
  exact (Hpre (VFloat 12) 12%Q eq_refl eq_refl).
Defined.

(** * Further properties *)

(** ** Relations and times as text *)

(** X1. Parsing the text that [_relation_to_str] gives for a comparison
    returns that comparison, and a string is never parsed to [None]. *)
Theorem parse_relation_roundtrip :
  (forall f : ufunc, _parse_relation (RelStr (_relation_to_str (Some f))) = Ok (Some f))
  /\ (forall (s : string) (r : option ufunc),
        _parse_relation (RelStr s) = Ok r -> exists f, r = Some f).
Proof.
  split.
  - intros f. destruct f; reflexivity.
  - intros s r. unfold _parse_relation. cbv zeta.
    repeat match goal with |- (if ?b then _ else _) = _ -> _ => destruct b end;
      intros E; try discriminate E; injection E as E; subst r; eauto.
Qed.

Lemma hms_split (value : Z) :
  0 <= value ->
  let h := Z.quot value 3600 in
  let m := Z.quot (value - h * 3600) 60 in
  let s := value - h * 3600 - m * 60 in
  value = h * 3600 + m * 60 + s /\ 0 <= h /\ 0 <= m < 60 /\ 0 <= s < 60.
Proof.
  intros Hv h m s. subst s m h.
  rewrite (Z.quot_div_nonneg value 3600) by lia.
  assert (0 <= value - value / 3600 * 3600 < 3600)
    by (pose proof (Z.mod_pos_bound value 3600 ltac:(lia));
        pose proof (Z.div_mod value 3600 ltac:(lia)); lia).
  rewrite (Z.quot_div_nonneg (value - value / 3600 * 3600) 60) by lia.
  pose proof (Z.div_pos value 3600 Hv ltac:(lia)).
  pose proof (Z.mod_pos_bound (value - value / 3600 * 3600) 60 ltac:(lia)).
  pose proof (Z.div_mod (value - value / 3600 * 3600) 60 ltac:(lia)).
  pose proof (Z.div_pos (value - value / 3600 * 3600) 60 ltac:(lia) ltac:(lia)).
  assert ((value - value / 3600 * 3600) / 60 < 60)
    by (apply Z.div_lt_upper_bound; lia).
  lia.
Qed.

(** X2. For a time from 0 to below [2^40] seconds,
    [_sec_to_hours_min_sec] prints hours, minutes and seconds that add up
    to the time, with minutes and seconds below 60. *)
Theorem sec_to_hours_min_sec_parts (value : Z) :
  0 <= value < 2 ^ 40 ->
  exists h m s,
    _sec_to_hours_min_sec value
    = (format_02d h ++ ":" ++ format_02d m ++ ":" ++ format_02d s)%string
    /\ value = h * 3600 + m * 60 + s
    /\ 0 <= h /\ 0 <= m < 60 /\ 0 <= s < 60.
Proof.
  intros [Hv _]. destruct (hms_split value Hv) as (E & Hh & Hm & Hs).
  eexists _, _, _. split; [reflexivity |]. repeat split; lia.
Qed.

Lemma sec_to_hours_min_sec_parts_witness :
  exists h m s,
    _sec_to_hours_min_sec 3725
    = (format_02d h ++ ":" ++ format_02d m ++ ":" ++ format_02d s)%string
    /\ 3725 = h * 3600 + m * 60 + s
    /\ 0 <= h /\ 0 <= m < 60 /\ 0 <= s < 60.
Proof. apply (sec_to_hours_min_sec_parts 3725). split; [lia | reflexivity]. Defined.

(** X3. For a time from 0 to below [2^40] seconds: below one day
    [_sec_to_days_hours_min_sec] prints what [_sec_to_hours_min_sec]
    prints; from one day on it prints the number of whole days, a dash,
    and the rest of the time as [_sec_to_hours_min_sec] prints it. *)
Theorem sec_to_days_hours_min_sec_splits (value : Z) :
  0 <= value < 2 ^ 40 ->
  (value < 86400 ->
     _sec_to_days_hours_min_sec value = _sec_to_hours_min_sec value)
  /\ (86400 <= value ->
     _sec_to_days_hours_min_sec value
     = (str_int (value / 86400) ++ "-" ++ _sec_to_hours_min_sec (value mod 86400))%string).
Proof.
  intros [Hv _]. unfold _sec_to_days_hours_min_sec, _sec_to_hours_min_sec.
  rewrite (Z.quot_div_nonneg value 86400) by lia.
  split; intros H.
  - rewrite (Z.div_small value 86400) by lia.
    change (0 >? 0) with false. cbv iota.
    replace (value - 0 * 86400) with value by lia. reflexivity.
  - assert (0 < value / 86400) by (apply Z.div_str_pos; lia).
    destruct (value / 86400 >? 0) eqn:E; [| lia].
    replace (value - value / 86400 * 86400) with (value mod 86400)
      by (pose proof (Z.div_mod value 86400 ltac:(lia)); lia).
    reflexivity.
Qed.

Lemma sec_to_days_hours_min_sec_splits_witness :
  _sec_to_days_hours_min_sec 90061 = "1-01:01:01"%string.
Proof.
  rewrite (proj2 (sec_to_days_hours_min_sec_splits 90061
                    ltac:(split; [lia | reflexivity])) ltac:(lia)).
  reflexivity.
Defined.

(** ** Time conditions, further *)

Ltac split_ifs :=
  repeat match goal with
    | |- context [if ?b then _ else _] => destruct b eqn:?
    end.

Ltac to_Z_props :=
  repeat match goal with
    | H : (_ && _) = true |- _ => apply andb_true_iff in H as [? ?]
    | H : (_ && _) = false |- _ => apply andb_false_iff in H as [? | ?]
    | H : negb _ = true |- _ => apply negb_true_iff in H
    | H : negb _ = false |- _ => apply negb_false_iff in H
    | H : (_ =? _) = true |- _ => apply Z.eqb_eq in H
    | H : (_ =? _) = false |- _ => apply Z.eqb_neq in H
    | H : (_ <? _) = true |- _ => apply Z.ltb_lt in H
    | H : (_ <? _) = false |- _ => apply Z.ltb_ge in H
    | H : (_ <=? _) = true |- _ => apply Z.leb_le in H
    | H : (_ <=? _) = false |- _ => apply Z.leb_gt in H
    | H : (_ >? _) = true |- _ => rewrite Z.gtb_ltb in H
    | H : (_ >? _) = false |- _ => rewrite Z.gtb_ltb in H
    | H : (_ >=? _) = true |- _ => rewrite Z.geb_leb in H
    | H : (_ >=? _) = false |- _ => rewrite Z.geb_leb in H
    end.

(** X4. A one-shot "at" condition on simulation time is true exactly on
    the step that straddles its threshold, [prev < threshold <= cur]; its
    backtrack is then [cur - threshold], which is not negative and is
    less than the length of the step, and it is 0 on every other step. *)
Theorem SimTime_at_once (model : WaterNetworkModel) (c : SimTimeCondition.t) :
  SimTimeCondition._repeat c = 0 ->
  SimTimeCondition._relation c = 0 ->
  let r := SimTimeCondition.evaluate model c in
  let t := SimTimeCondition._threshold c in
  (fst r = true <-> prev_sim_time model < t <= sim_time model)
  /\ (fst r = true ->
      SimTimeCondition._backtrack (snd r) = Some (sim_time model - t)
      /\ 0 <= sim_time model - t < sim_time model - prev_sim_time model)
  /\ (fst r = false -> SimTimeCondition._backtrack (snd r) = Some 0).
Proof.
  intros Hrep Hrel r t. subst r t. unfold SimTimeCondition.evaluate.
  rewrite Hrep, Hrel. cbn [Z.eqb negb andb].
  split_ifs; cbn [fst snd SimTimeCondition.set_backtrack SimTimeCondition._backtrack];
    to_Z_props; repeat split; intros; try discriminate; try lia;
    try (f_equal; lia); to_Z_props; try lia.
Qed.

Lemma SimTime_at_once_witness :
  fst (SimTimeCondition.evaluate first_hour
         (once_at_1800 0)) = true.
Proof.
  apply (proj1 (SimTime_at_once first_hour
                  (once_at_1800 0) eq_refl eq_refl)).
  cbn. lia.
Defined.

(** X5. A one-shot "after" condition on simulation time is true exactly
    when the cursor has reached the threshold; its backtrack is
    [cur - threshold] on the step that crosses the threshold and 0 on
    every other step. *)
Theorem SimTime_after_once (model : WaterNetworkModel) (c : SimTimeCondition.t) :
  SimTimeCondition._repeat c = 0 ->
  SimTimeCondition._relation c = 1 ->
  let r := SimTimeCondition.evaluate model c in
  let t := SimTimeCondition._threshold c in
  (fst r = true <-> t <= sim_time model)
  /\ (prev_sim_time model < t <= sim_time model ->
      SimTimeCondition._backtrack (snd r) = Some (sim_time model - t))
  /\ (~ (prev_sim_time model < t <= sim_time model) ->
      SimTimeCondition._backtrack (snd r) = Some 0).
Proof.
  intros Hrep Hrel r t. subst r t. unfold SimTimeCondition.evaluate.
  rewrite Hrep, Hrel. cbn [Z.eqb negb andb].
  split_ifs; cbn [fst snd SimTimeCondition.set_backtrack SimTimeCondition._backtrack];
    to_Z_props; repeat split; intros; try discriminate; try lia;
    try (f_equal; lia); to_Z_props; try lia.
Qed.

Lemma SimTime_after_once_witness :
  fst (SimTimeCondition.evaluate third_hour
         (once_at_1800 1)) = true.
Proof.
  apply (proj1 (SimTime_after_once third_hour
                  (once_at_1800 1) eq_refl eq_refl)).
  cbn. lia.
Defined.

(** X6. Whenever a time condition of either class evaluates to true, the
    backtrack it leaves is an integer that is not negative, never
    [None]. *)
Theorem true_time_condition_has_backtrack :
  (forall model c,
      fst (TimeOfDayCondition.evaluate model c) = true ->
      exists b, TimeOfDayCondition._backtrack (snd (TimeOfDayCondition.evaluate model c)) = Some b
                /\ 0 <= b)
  /\ (forall model c,
      fst (SimTimeCondition.evaluate model c) = true ->
      exists b, SimTimeCondition._backtrack (snd (SimTimeCondition.evaluate model c)) = Some b
                /\ 0 <= b).
Proof.
  split; intros model c.
  - unfold TimeOfDayCondition.evaluate.
    split_ifs; cbn [fst snd TimeOfDayCondition.set_backtrack TimeOfDayCondition._backtrack];
      intros E; try discriminate E; to_Z_props; eexists; split; try reflexivity; lia.
  - unfold SimTimeCondition.evaluate.
    split_ifs; cbn [fst snd SimTimeCondition.set_backtrack SimTimeCondition._backtrack];
      intros E; try discriminate E; to_Z_props; eexists; split; try reflexivity; lia.
Qed.

Lemma true_time_condition_has_backtrack_witness :
  exists b, TimeOfDayCondition._backtrack
              (snd (TimeOfDayCondition.evaluate
                      noon_step
                      daily_at_6)) = Some b
            /\ 0 <= b.
Proof.
  apply (proj1 true_time_condition_has_backtrack
           noon_step daily_at_6).
  reflexivity.
Defined.

(** X7. A daily time-of-day condition repeats with the day: evaluated a
    whole number of days later (on days that are not before its first
    day) it gives the same truth value and leaves the same backtrack. *)
Theorem TimeOfDay_daily_is_periodic
    (k : Z) (model : WaterNetworkModel) (c : TimeOfDayCondition.t) :
  TimeOfDayCondition._repeat c = true ->
  TimeOfDayCondition._first_day c <= shifted_time model / 86400 ->
  TimeOfDayCondition._first_day c <= shifted_time model / 86400 + k ->
  TimeOfDayCondition.evaluate (days_later k model) c = TimeOfDayCondition.evaluate model c.
Proof.
  intros Hrep H0 Hk. unfold TimeOfDayCondition.evaluate, days_later.
  cbn [shifted_time prev_shifted_time]. rewrite Hrep.
  rewrite (Z.div_add (shifted_time model) k 86400) by lia.
  destruct (_ / 86400 + k <? _) eqn:E1; [apply Z.ltb_lt in E1; lia |].
  destruct (shifted_time model / 86400 <? _) eqn:E2; [apply Z.ltb_lt in E2; lia |].
  replace (shifted_time model + k * 86400 - TimeOfDayCondition._threshold c)
    with (shifted_time model - TimeOfDayCondition._threshold c + k * 86400) by lia.
  replace (prev_shifted_time model + k * 86400 - TimeOfDayCondition._threshold c)
    with (prev_shifted_time model - TimeOfDayCondition._threshold c + k * 86400) by lia.
  rewrite !Z.mod_add by lia. reflexivity.
Qed.

Lemma TimeOfDay_daily_is_periodic_witness :
  TimeOfDayCondition.evaluate (days_later 2 first_hour) daily_at_6
  = TimeOfDayCondition.evaluate first_hour daily_at_6.
Proof.
  apply (TimeOfDay_daily_is_periodic 2 first_hour daily_at_6);
    [reflexivity | apply Z.leb_le; reflexivity | apply Z.leb_le; reflexivity].
Defined.

(** ** Value conditions, further *)

Lemma Qeq_bool_sym (a b : Q) : Qeq_bool a b = Qeq_bool b a.
Proof.
  apply eq_true_iff_eq. rewrite !Qeq_bool_iff. split; intros E; by symmetry.
Qed.

Lemma ufunc_apply_holds (f : ufunc) (a b : Q) :
  ufunc_apply f a b = true <-> ufunc_holds f a b.
Proof.
  destruct f; cbn.
  - apply Qeq_bool_iff.
  - rewrite negb_true_iff, <- not_true_iff_false, Qeq_bool_iff. reflexivity.
  - apply Qlt_bool_iff.
  - apply Qlt_bool_iff.
  - apply Qle_bool_iff.
  - apply Qle_bool_iff.
Qed.

Lemma ufunc_apply_mirror (f : ufunc) (a b : Q) :
  ufunc_apply (mirror f) b a = ufunc_apply f a b.
Proof. destruct f; cbn; rewrite ?(Qeq_bool_sym b a); reflexivity. Qed.

Lemma getattr_float_inv (h : gmap nat PyObj) (l : nat) (a : string) (x : Q) :
  getattr_float h l a = Ok x -> exists v, getattr h l a = Ok v /\ as_float v = Ok x.
Proof.
  unfold getattr_float. destruct (getattr h l a) as [v|]; [| discriminate].
  cbn. eauto.
Qed.

(** X8. A value condition on a numeric attribute, [x] being the
    attribute as the float with which numpy compares it (an int is
    converted to the nearest double), with a threshold [t] that is a
    number evaluates to true exactly when [x] stands in the condition's
    relation to [t], for each of the six relations; with a threshold that
    is not a number it evaluates to true exactly when [x > 0], whatever
    its relation. *)
Theorem ValueCondition_evaluate_meaning
    (h : gmap nat PyObj) (c : ValueCondition.t) (v : value) (x : Q) :
  getattr h (ValueCondition._source_obj c) (ValueCondition._source_attr c) = Ok v ->
  as_float v = Ok x ->
  (forall t f, ValueCondition._threshold c = Finite t ->
               ValueCondition._relation c = Some f ->
               exists b, ValueCondition.evaluate h c = Ok b /\ (b = true <-> ufunc_holds f x t))
  /\ (ValueCondition._threshold c = NaN ->
      exists b, ValueCondition.evaluate h c = Ok b /\ (b = true <-> (0 < x)%Q)).
Proof.
  intros Hv Hx. unfold ValueCondition.evaluate. rewrite Hv.
  cbn [mbind result_bind]. split.
  - intros t f -> ->. rewrite (ufunc_call_number _ _ _ _ Hx).
    eexists. split; [reflexivity | apply ufunc_apply_holds].
  - intros ->. rewrite (ufunc_call_number _ _ _ _ Hx).
    eexists. split; [reflexivity | apply (ufunc_apply_holds np_greater)].
Qed.

Lemma ValueCondition_evaluate_meaning_witness :
  exists b,
    ValueCondition.evaluate named_tank_heap
      level_at_least_3 = Ok b
    /\ (b = true <-> (3 <= 4)%Q).
Proof.
  refine (proj1 (ValueCondition_evaluate_meaning named_tank_heap
                   level_at_least_3
                   (VFloat 4) 4%Q eq_refl eq_refl) 3%Q np_greater_equal eq_refl eq_refl).
Defined.

(** An int attribute is compared as numpy converts it: [2^53 + 1] is not
    above a threshold of [2^53]. *)
Lemma ValueCondition_rounds_int :
  ValueCondition.evaluate big_head_heap head_above_2_53 = Ok false.
Proof. vm_compute. reflexivity. Qed.

Lemma np_call_mirror (f : ufunc) (a b : value) (x y : Q) :
  as_float a = Ok x -> as_float b = Ok y -> np_call (mirror f) b a = np_call f a b.
Proof.
  destruct a, b; cbn [as_float]; try discriminate; intros _ _;
    cbn [np_call as_int as_float mbind result_bind];
    by rewrite ufunc_apply_mirror.
Qed.

(** X9. A relative condition can be read from either side: exchanging the
    source with the threshold and the relation with its mirror image
    ([<] with [>], [<=] with [>=]) gives the same result, when both
    attributes are numbers. *)
Theorem RelativeCondition_mirror_same
    (h : gmap nat PyObj) (c : RelativeCondition.t) (x y : Q) :
  getattr_float h (RelativeCondition._source_obj c) (RelativeCondition._source_attr c) = Ok x ->
  getattr_float h (RelativeCondition._threshold_obj c) (RelativeCondition._threshold_attr c) = Ok y ->
  RelativeCondition.evaluate h (RelativeCondition_mirror c) = RelativeCondition.evaluate h c.
Proof.
  intros Hx Hy.
  destruct (getattr_float_inv _ _ _ _ Hx) as (vx & Hvx & Hfx).
  destruct (getattr_float_inv _ _ _ _ Hy) as (vy & Hvy & Hfy).
  unfold RelativeCondition.evaluate, RelativeCondition_mirror.
  cbn [RelativeCondition._source_obj RelativeCondition._source_attr
       RelativeCondition._threshold_obj RelativeCondition._threshold_attr
       RelativeCondition._relation].
  rewrite Hvx, Hvy. cbn [mbind result_bind].
  destruct (RelativeCondition._relation c) as [f|]; cbn [fmap option_fmap option_map];
    [| reflexivity].
  exact (np_call_mirror f vx vy x y Hfx Hfy).
Qed.

Lemma RelativeCondition_mirror_same_witness :
  RelativeCondition.evaluate (valve_heap LinkStatus.closed 5 0 10 2 3)
    (RelativeCondition_mirror start_above_end)
  = Ok true.
Proof.
  rewrite (RelativeCondition_mirror_same (valve_heap LinkStatus.closed 5 0 10 2 3)
             start_above_end 10%Q 2%Q eq_refl eq_refl).
  reflexivity.
Defined.

(** ** Combined conditions, further *)

Lemma backtrack_raises_TypeError (c : ControlCondition) (e : exn) :
  backtrack c = Raise e -> e = TypeError.
Proof.
  induction c as [| | | |c1 IH1 c2 IH2|c1 IH1 c2 IH2]; cbn; try discriminate.
  all: destruct (backtrack c1) as [[b1|]|e1]; cbn;
    [ | | intros [= <-]; by apply IH1 ].
  all: destruct (backtrack c2) as [[b2|]|e2]; cbn;
    try (intros [= <-]; first [reflexivity | by apply IH2]); try discriminate.
Qed.

(** The backtrack of any condition, by its simple conditions: their
    maximum when all of them are integers; otherwise [None] for a simple
    condition and [TypeError] for a combined one. *)
Lemma backtrack_by_leaves (c : ControlCondition) :
  (Forall is_Some (leaf_backtracks c) ->
     exists m, backtrack c = Ok (Some m)
               /\ Some m ∈ leaf_backtracks c
               /\ forall y, Some y ∈ leaf_backtracks c -> y <= m)
  /\ (~ Forall is_Some (leaf_backtracks c) ->
     if is_combined c then backtrack c = Raise TypeError else backtrack c = Ok None).
Proof.
  induction c as [t|t|t|t|c1 [IH1 IH1'] c2 [IH2 IH2']|c1 [IH1 IH1'] c2 [IH2 IH2']];
    cbn [leaf_backtracks backtrack is_combined].
  1-4: split;
    [ intros Hall; apply Forall_singleton in Hall as [m Hm]; rewrite Hm;
      exists m; split; [reflexivity |]; split;
      [ apply list_elem_of_singleton; reflexivity
      | intros y Hy; apply list_elem_of_singleton in Hy; injection Hy as ->; lia ]
    | intros Hn;
      match goal with |- Ok ?b = _ => destruct b as [m|] eqn:E end;
      [ exfalso; apply Hn, Forall_singleton; eauto | reflexivity ] ].
  all: split.
  all: try (intros Hall; apply Forall_app in Hall as [H1 H2];
            destruct (IH1 H1) as (m1 & E1 & M1 & U1);
            destruct (IH2 H2) as (m2 & E2 & M2 & U2);
            rewrite E1, E2; cbn;
            exists (Z.max m1 m2); split; [reflexivity |]; split;
            [ destruct (Z.max_spec m1 m2) as [[_ ->] | [_ ->]];
              apply elem_of_app; [right | left]; assumption
            | intros y Hy; apply elem_of_app in Hy as [Hy | Hy];
              [specialize (U1 y Hy) | specialize (U2 y Hy)]; lia ]).
  all: intros Hn.
  all: destruct (decide (Forall is_Some (leaf_backtracks c1))) as [H1 | H1].
  all: try (destruct (IH1 H1) as (m1 & E1 & _); rewrite E1; cbn;
            assert (H2 : ~ Forall is_Some (leaf_backtracks c2))
              by (intros H2; apply Hn, Forall_app; split; assumption);
            specialize (IH2' H2); destruct (is_combined c2);
            rewrite IH2'; reflexivity).
  all: specialize (IH1' H1); destruct (is_combined c1); rewrite IH1'; cbn;
    [reflexivity |].
  all: destruct (backtrack c2) as [b2|e2] eqn:E2; cbn;
    [reflexivity | f_equal; eapply backtrack_raises_TypeError; eassumption].
Qed.

(** X10. When the backtracks of all simple conditions under a condition,
    however deeply combined with [OrCondition] and [AndCondition], are
    integers, its backtrack is their maximum: it is one of them and none
    of them exceeds it. *)
Theorem backtrack_is_maximum_of_leaves (c : ControlCondition) :
  Forall is_Some (leaf_backtracks c) ->
  exists m, backtrack c = Ok (Some m)
            /\ Some m ∈ leaf_backtracks c
            /\ forall y, Some y ∈ leaf_backtracks c -> y <= m.
Proof. apply backtrack_by_leaves. Qed.

Lemma backtrack_is_maximum_of_leaves_witness :
  exists m,
    backtrack (AndCondition (SimTime once_at_7200)
                 (OrCondition (TimeOfDay daily_at_6) (SimTime once_at_7200))) = Ok (Some m)
    /\ Some m ∈ leaf_backtracks
                  (AndCondition (SimTime once_at_7200)
                     (OrCondition (TimeOfDay daily_at_6) (SimTime once_at_7200)))
    /\ forall y, Some y ∈ leaf_backtracks
                   (AndCondition (SimTime once_at_7200)
                      (OrCondition (TimeOfDay daily_at_6) (SimTime once_at_7200)))
                 -> y <= m.
Proof.
  apply backtrack_is_maximum_of_leaves. cbn. repeat constructor; eauto.
Defined.

(** When the backtrack of some simple condition under a combined
    condition is [None], reading the backtrack of the combined condition
    raises [TypeError], at whatever depth the [None] lies. *)
Theorem backtrack_of_combined_with_None (c : ControlCondition) :
  is_combined c = true ->
  None ∈ leaf_backtracks c ->
  backtrack c = Raise TypeError.
Proof.
  intros Hc Hn.
  assert (H : ~ Forall is_Some (leaf_backtracks c)).
  { intros Hall. rewrite Forall_forall in Hall.
    destruct (Hall None Hn) as [x Hx]. discriminate Hx. }
  pose proof (proj2 (backtrack_by_leaves c) H) as E. by rewrite Hc in E.
Qed.

Lemma backtrack_of_combined_with_None_witness :
  backtrack (AndCondition (SimTime once_at_7200)
               (OrCondition (SimTime once_at_7200)
                  (TimeOfDay (TimeOfDayCondition.set_backtrack daily_at_6 None))))
  = Raise TypeError.
Proof.
  apply backtrack_of_combined_with_None; [reflexivity |].
  cbn. apply list_elem_of_In. cbn. tauto.
Defined.

(** ** Control actions, further *)

Lemma py_eq_refl (v : value) : py_eq v v = true.
Proof.
  destruct v as [|b|z|q|s]; cbn; try reflexivity;
    first [apply Qeq_bool_refl | apply String.eqb_refl].
Qed.

Lemma py_eq_sym (v1 v2 : value) : py_eq v1 v2 = py_eq v2 v1.
Proof.
  destruct v1, v2; cbn; try reflexivity;
    first [apply Qeq_bool_sym | apply String.eqb_sym].
Qed.

Lemma hasattr_getattr (h : gmap nat PyObj) (l : nat) (a : string) :
  hasattr h l a = true -> exists v, getattr h l a = Ok v.
Proof.
  unfold hasattr, getattr. destruct (h !! l) as [o|]; [| discriminate].
  intros H. apply bool_decide_eq_true in H as [v Hv]. rewrite Hv. eauto.
Qed.

Lemma setattr_undo (h : gmap nat PyObj) (l : nat) (a : string) (orig v : value) :
  getattr h l a = Ok orig -> setattr (setattr h l a v) l a orig = h.
Proof.
  unfold getattr, setattr. destruct (h !! l) as [o|] eqn:E; [| discriminate].
  destruct (obj_attrs o !! a) as [w|] eqn:Ea; [| discriminate]. intros [= ->].
  rewrite lookup_insert_eq. cbn [obj_class obj_attrs].
  rewrite insert_insert_eq, insert_insert_eq, (insert_id (obj_attrs o) a orig Ea).
  destruct o as [cls attrs]. cbn. by apply insert_id.
Qed.

Lemma class_of_setattr (h : gmap nat PyObj) (l l' : nat) (a : string) (v : value) :
  class_of (setattr h l a v) l' = class_of h l'.
Proof.
  unfold class_of, setattr. destruct (h !! l) as [o|] eqn:E; [| reflexivity].
  destruct (decide (l = l')) as [<- | Hne].
  - by rewrite lookup_insert_eq, E.
  - by rewrite lookup_insert_ne.
Qed.

(** What a successful run returns and leaves, by the attribute's previous
    value. *)
Lemma run_action_inv (a : ControlAction.t) (control_name : string) (h h' : gmap nat PyObj)
    (flag : bool) (ch : option (nat * string)) (o : option value) :
  ControlAction._RunControlActionImpl a control_name h = Ok (flag, ch, o, h') ->
  exists target orig,
    ControlAction._target_obj_ref a = Some target
    /\ getattr h target (ControlAction._attribute a) = Ok orig
    /\ ((py_eq orig (ControlAction._value a) = true
         /\ flag = false /\ ch = None /\ o = None /\ h' = h)
        \/ (py_eq orig (ControlAction._value a) = false
            /\ flag = true /\ ch = Some (target, ControlAction._attribute a)
            /\ o = Some orig
            /\ h' = setattr h target (ControlAction._attribute a) (ControlAction._value a))).
Proof.
  unfold ControlAction._RunControlActionImpl.
  destruct (ControlAction._target_obj_ref a) as [target|]; [| discriminate].
  destruct (hasattr h target (ControlAction._attribute a)) eqn:Hh; [| discriminate].
  destruct (hasattr_getattr _ _ _ Hh) as [orig Hg]. rewrite Hg. cbn.
  destruct (py_eq orig (ControlAction._value a)) eqn:E; intros H;
    injection H as <- <- <- <-; exists target, orig;
    (split; [reflexivity |]); (split; [exact Hg |]); [left | right];
    repeat split; first [assumption | reflexivity].
Qed.

(** X11. An action constructed on a heap runs on that heap without
    raising, and after the run the target attribute equals the action's
    value, when the attribute and the value are of the same kind: two
    floats, or two ints, as a link's status and the status to set are. *)
Theorem constructed_action_runs (h : gmap nat PyObj) (target_obj : option nat)
    (attribute : string) (v : value) (a : ControlAction.t) (control_name : string) :
  ControlAction.__init__ h target_obj attribute v = Ok a ->
  (forall target orig,
     target_obj = Some target -> getattr h target attribute = Ok orig -> same_kind orig v) ->
  exists flag ch o h' target v',
    ControlAction._RunControlActionImpl a control_name h = Ok (flag, ch, o, h')
    /\ target_obj = Some target
    /\ getattr h' target attribute = Ok v'
    /\ py_eq v' v = true.
Proof.
  unfold ControlAction.__init__. destruct target_obj as [l|]; [| discriminate].
  destruct (hasattr h l attribute) eqn:Hh; [| discriminate]. intros [= <-] _.
  destruct (hasattr_getattr _ _ _ Hh) as [orig Hg].
  unfold ControlAction._RunControlActionImpl.
  cbn [ControlAction._target_obj_ref ControlAction._attribute ControlAction._value].
  rewrite Hh, Hg. cbn.
  destruct (py_eq orig v) eqn:E.
  - eexists _, _, _, _, l, orig. repeat split; assumption.
  - eexists _, _, _, _, l, v. repeat split.
    + eapply getattr_setattr; eassumption.
    + apply py_eq_refl.
Qed.

Lemma constructed_action_runs_witness :
  exists flag ch o h' target v',
    ControlAction._RunControlActionImpl close_pipe_1 "blah" (objects open_pipe_world)
    = Ok (flag, ch, o, h')
    /\ Some 1%nat = Some target
    /\ getattr h' target "status" = Ok v'
    /\ py_eq v' LinkStatus.closed = true.
Proof.
  apply (constructed_action_runs (objects open_pipe_world) (Some 1%nat) "status"
           LinkStatus.closed close_pipe_1 "blah").
  - reflexivity.
  - intros target orig [= <-] Hg. vm_compute in Hg. injection Hg as <-. exact I.
Defined.

(** X12. Running an action a second time changes nothing: after any
    successful run, another run of the same action reports no change and
    leaves the heap as it is. *)
Theorem run_action_twice (a : ControlAction.t) (n1 n2 : string) (h h' : gmap nat PyObj)
    (flag : bool) (ch : option (nat * string)) (o : option value) :
  ControlAction._RunControlActionImpl a n1 h = Ok (flag, ch, o, h') ->
  ControlAction._RunControlActionImpl a n2 h' = Ok (false, None, None, h').
Proof.
  intros H. destruct (run_action_inv _ _ _ _ _ _ _ H)
    as (target & orig & Ht & Hg & [(E & _ & _ & _ & ->) | (E & _ & _ & _ & ->)]);
    unfold ControlAction._RunControlActionImpl; rewrite Ht.
  - rewrite (getattr_hasattr _ _ _ _ Hg), Hg. cbn. by rewrite E.
  - pose proof (getattr_setattr _ _ _ _ (ControlAction._value a) Hg) as Hg'.
    rewrite (getattr_hasattr _ _ _ _ Hg'), Hg'. cbn. by rewrite py_eq_refl.
Qed.

Lemma run_action_twice_witness :
  exists h',
    ControlAction._RunControlActionImpl close_pipe_1 "blah" (objects open_pipe_world)
    = Ok (true, Some (1%nat, "status"%string), Some LinkStatus.opened, h')
    /\ ControlAction._RunControlActionImpl close_pipe_1 "blah" h' = Ok (false, None, None, h').
Proof.
  eexists. split; [vm_compute; reflexivity |].
  eapply (run_action_twice close_pipe_1 "blah" "blah" (objects open_pipe_world)).
  vm_compute; reflexivity.
Defined.

(** X13. Running an action touches one attribute of one object: every
    other attribute of every object reads as before, and no object
    changes its class. *)
Theorem run_action_frame (a : ControlAction.t) (control_name : string)
    (h h' : gmap nat PyObj) (flag : bool) (ch : option (nat * string)) (o : option value) :
  ControlAction._RunControlActionImpl a control_name h = Ok (flag, ch, o, h') ->
  (forall l' a', (ControlAction._target_obj_ref a, ControlAction._attribute a) <> (Some l', a') ->
                 getattr h' l' a' = getattr h l' a')
  /\ (forall l', class_of h' l' = class_of h l').
Proof.
  intros H. destruct (run_action_inv _ _ _ _ _ _ _ H)
    as (target & orig & Ht & Hg & [(E & _ & _ & _ & ->) | (E & _ & _ & _ & ->)]).
  - split; reflexivity.
  - split.
    + intros l' a' Hne. apply getattr_setattr_other. rewrite Ht in Hne. congruence.
    + intros l'. apply class_of_setattr.
Qed.

Lemma run_action_frame_witness :
  exists h',
    ControlAction._RunControlActionImpl (valve_action LinkStatus.opened) "blah"
      (valve_heap LinkStatus.closed 5 0 10 2 3)
    = Ok (true, Some (0%nat, "_status"%string), Some LinkStatus.closed, h')
    /\ getattr h' 0%nat "setting" = getattr (valve_heap LinkStatus.closed 5 0 10 2 3) 0%nat "setting".
Proof.
  eexists. split; [vm_compute; reflexivity |].
  refine (proj1 (run_action_frame (valve_action LinkStatus.opened) "blah"
                   (valve_heap LinkStatus.closed 5 0 10 2 3) _ true
                   (Some (0%nat, "_status"%string)) (Some LinkStatus.closed) _)
            0%nat "setting"%string _);
    [vm_compute; reflexivity | discriminate].
Defined.

(** X14. The previous value that a run reports undoes it: after a run
    that reported a change, running an action that sets the same
    attribute to the reported previous value restores the heap exactly. *)
Theorem run_action_undo (a : ControlAction.t) (n1 n2 : string) (h h' : gmap nat PyObj)
    (ch : option (nat * string)) (orig : value) :
  ControlAction._RunControlActionImpl a n1 h = Ok (true, ch, Some orig, h') ->
  ControlAction._RunControlActionImpl
    {| ControlAction._target_obj_ref := ControlAction._target_obj_ref a;
       ControlAction._attribute := ControlAction._attribute a;
       ControlAction._value := orig |} n2 h'
  = Ok (true, ch, Some (ControlAction._value a), h).
Proof.
  intros H. destruct (run_action_inv _ _ _ _ _ _ _ H)
    as (target & orig' & Ht & Hg & [(_ & Hf & _) | (E & _ & -> & Ho & ->)]);
    [discriminate Hf |]. injection Ho as <-.
  unfold ControlAction._RunControlActionImpl.
  cbn [ControlAction._target_obj_ref ControlAction._attribute ControlAction._value].
  pose proof (getattr_setattr _ _ _ _ (ControlAction._value a) Hg) as Hg'.
  rewrite Ht, (getattr_hasattr _ _ _ _ Hg'), Hg'. cbn.
  rewrite py_eq_sym, E. by rewrite (setattr_undo _ _ _ _ _ Hg).
Qed.

Lemma run_action_undo_witness :
  exists h',
    ControlAction._RunControlActionImpl close_pipe_1 "blah" (objects open_pipe_world)
    = Ok (true, Some (1%nat, "status"%string), Some LinkStatus.opened, h')
    /\ ControlAction._RunControlActionImpl open_pipe_1 "blah" h'
       = Ok (true, Some (1%nat, "status"%string), Some LinkStatus.closed,
             objects open_pipe_world).
Proof.
  eexists. split; [vm_compute; reflexivity |].
  eapply (run_action_undo close_pipe_1 "blah" "blah" (objects open_pipe_world)).
  vm_compute; reflexivity.
Defined.

Lemma round64_ext (p q : Q) : Qnum p = Qnum q -> Qden p = Qden q -> round64 p = round64 q.
Proof. unfold round64. by intros -> ->. Qed.

Lemma round64_zero (q : Q) : Qnum q = 0 -> round64 q = 0%Q.
Proof. unfold round64. by intros ->. Qed.

Lemma round64_opp (q : Q) : (round64 (- q) == - round64 q)%Q.
Proof.
  destruct q as [[|n|n] d]; unfold round64; cbn [Qopp Qnum Qden Z.opp];
    [reflexivity | reflexivity | symmetry; apply Qopp_involutive].
Qed.

Lemma round64_minus_swap (x y : Q) : (round64 (y - x) == - round64 (x - y))%Q.
Proof.
  rewrite <- round64_opp.
  rewrite (round64_ext (y - x) (- (x - y))); [reflexivity | |].
  - destruct x, y. cbn. lia.
  - destruct x, y. cbn. apply Pos.mul_comm.
Qed.

(** X15. On actions whose values are floats, [__eq__] is reflexive and
    symmetric. *)
Theorem ControlAction_eq_floats (t1 t2 : option nat) (a1 a2 : string) (x y : Q) :
  let a := {| ControlAction._target_obj_ref := t1; ControlAction._attribute := a1;
              ControlAction._value := VFloat x |} in
  let b := {| ControlAction._target_obj_ref := t2; ControlAction._attribute := a2;
              ControlAction._value := VFloat y |} in
  ControlAction.__eq__ a a = Ok true
  /\ ControlAction.__eq__ a b = ControlAction.__eq__ b a.
Proof.
  intros a b. subst a b. unfold ControlAction.__eq__.
  cbn [ControlAction._target_obj_ref ControlAction._attribute ControlAction._value].
  cbv [py_float mbind result_bind]. split.
  - rewrite bool_decide_true by reflexivity. rewrite String.eqb_refl. cbn [andb].
    rewrite (round64_zero (x - x)) by (destruct x; cbn; lia).
    reflexivity.
  - rewrite (String.eqb_sym a1 a2).
    replace (bool_decide (t1 = t2)) with (bool_decide (t2 = t1))
      by (apply bool_decide_ext; split; congruence).
    destruct (bool_decide (t2 = t1) && String.eqb a2 a1); [| reflexivity].
    f_equal. unfold Qlt_bool. f_equal.
    apply Qle_bool_proper; [reflexivity |].
    rewrite (round64_minus_swap x y). symmetry. apply Qabs_opp.
Qed.

(** ** Time controls, further *)

Lemma py_eq_closed_not_opened (v : value) :
  py_eq v LinkStatus.closed = true -> py_eq v LinkStatus.opened = false.
Proof.
  unfold py_eq, LinkStatus.closed, LinkStatus.opened.
  destruct v as [|b|z|q|s]; cbn; try discriminate.
  - destruct b; [discriminate | reflexivity].
  - intros E. apply Qeq_bool_iff in E. apply not_true_iff_false. intros E'.
    apply Qeq_bool_iff in E'. rewrite E in E'. vm_compute in E'. discriminate E'.
  - intros E. apply Qeq_bool_iff in E. apply not_true_iff_false. intros E'.
    apply Qeq_bool_iff in E'. rewrite E in E'. vm_compute in E'. discriminate E'.
Qed.

(** X16. The priority derived from an action is 3 when the action sets
    the [status] of a link to closed, and 0 in every other case. *)
Theorem action_priority_cases (h : gmap nat PyObj) (a : ControlAction.t) :
  let closes_link :=
    (exists l c, ControlAction._target_obj_ref a = Some l
                 /\ class_of h l = Some c /\ isinstance_Link c = true)
    /\ ControlAction._attribute a = "status"%string
    /\ py_eq (ControlAction._value a) LinkStatus.closed = true in
  (closes_link -> action_priority h a = 3)
  /\ (~ closes_link -> action_priority h a = 0).
Proof.
  intros closes_link. subst closes_link. unfold action_priority.
  destruct (ControlAction._target_obj_ref a) as [l|].
  2: { cbn. split; [intros ((l & c & Hl & _) & _); discriminate Hl | reflexivity]. }
  destruct (class_of h l) as [c|] eqn:Hcl.
  2: { cbn. split; [| reflexivity].
       intros ((l' & c & [= <-] & Hc & _) & _). congruence. }
  destruct (isinstance_Link c) eqn:Hlink.
  2: { cbn. split; [| reflexivity].
       intros ((l' & c' & [= <-] & Hc & Hc') & _). congruence. }
  cbn [andb].
  destruct (String.eqb (ControlAction._attribute a) "status") eqn:Hs.
  2: { cbn. split; [| reflexivity].
       intros (_ & Ha & _). apply String.eqb_neq in Hs. contradiction. }
  apply String.eqb_eq in Hs. cbn [andb].
  destruct (py_eq (ControlAction._value a) LinkStatus.closed) eqn:Hc.
  - rewrite (py_eq_closed_not_opened _ Hc). split; [reflexivity |].
    intros Hn. exfalso. apply Hn. split; [eauto | split; [assumption | reflexivity]].
  - split; [intros (_ & _ & E); discriminate E |].
    intros _. destruct (py_eq _ LinkStatus.opened); reflexivity.
Qed.

Lemma action_priority_cases_witness :
  action_priority (objects open_pipe_world) close_pipe_1 = 3.
Proof.
  apply (proj1 (action_priority_cases (objects open_pipe_world) close_pipe_1)).
  split; [exists 1%nat, Pipe; repeat split | split; reflexivity].
Defined.

(** X17. A time control that [__init__] returns has one of the two time
    flags, the flags and action it was given and the priority of its
    action; a daily one was given a time of at most 24 hours; on
    simulation time its [run_at_time] is the one given and is not before
    the current simulation time; on shifted time it is the one given,
    moved 24 hours later if that was before the current shifted time. *)
Theorem TimeControl_init_ok (wnm : WaterNetworkModel) (h : gmap nat PyObj)
    (run_at_time : Z) (time_flag : string) (daily_flag : bool)
    (control_action : option ControlAction.t) (c : TimeControl.t) :
  TimeControl.__init__ wnm h run_at_time time_flag daily_flag control_action = Ok c ->
  (exists a, control_action = Some a /\ TimeControl._priority c = action_priority h a)
  /\ TimeControl._control_action c = control_action
  /\ TimeControl._time_flag c = time_flag
  /\ TimeControl._daily_flag c = daily_flag
  /\ (daily_flag = true -> run_at_time <= 86400)
  /\ ((time_flag = "SIM_TIME"%string
       /\ TimeControl._run_at_time c = run_at_time /\ sim_time wnm <= run_at_time)
      \/ (time_flag = "SHIFTED_TIME"%string
          /\ TimeControl._run_at_time c
             = if run_at_time <? shifted_time wnm then run_at_time + 86400 else run_at_time)).
Proof.
  unfold TimeControl.__init__. destruct control_action as [a|]; [| discriminate].
  destruct (String.eqb time_flag "SIM_TIME") eqn:Hsim;
    destruct (String.eqb time_flag "SHIFTED_TIME") eqn:Hsh; cbn [negb andb];
    try discriminate.
  - apply String.eqb_eq in Hsim, Hsh. congruence.
  - apply String.eqb_eq in Hsim.
    destruct (daily_flag && (run_at_time >? 24 * 3600)) eqn:Hd; [discriminate |].
    destruct (run_at_time <? sim_time wnm) eqn:Hp; [discriminate |].
    intros [= <-]. cbn. apply Z.ltb_ge in Hp.
    split; [eauto |]. do 3 (split; [reflexivity |]).
    split; [intros ->; cbn in Hd; lia |].
    left. repeat split; [assumption | lia].
  - apply String.eqb_eq in Hsh.
    destruct (daily_flag && (run_at_time >? 24 * 3600)) eqn:Hd; [discriminate |].
    intros [= <-]. cbn.
    split; [eauto |]. do 3 (split; [reflexivity |]).
    split; [intros ->; cbn in Hd; lia |].
    right. split; [assumption |]. destruct (run_at_time <? shifted_time wnm); reflexivity.
Qed.

Lemma TimeControl_init_ok_witness :
  TimeControl._time_flag close_pipe_at_7200 = "SIM_TIME"%string
  /\ TimeControl._daily_flag close_pipe_at_7200 = true.
Proof.
  pose proof (TimeControl_init_ok third_hour (objects open_pipe_world) 7200 "SIM_TIME" true
                (Some close_pipe_1) close_pipe_at_7200 eq_refl) as (_ & _ & Hf & Hd & _).
  split; assumption.
Defined.

(** X18. A time control requires action only before the solve, and only
    on the step that straddles its [run_at_time] on the clock of its time
    flag; the backtrack is then the time by which the step overshoots,
    not negative and less than the length of the step.  When no action is
    required the backtrack is [None]. *)
Theorem TimeControl_required_backtrack (c : TimeControl.t) (wnm : WaterNetworkModel)
    (presolve_flag : bool) (b : option Z) :
  (TimeControl._IsControlActionRequiredImpl c wnm presolve_flag = (true, b) ->
     presolve_flag = true
     /\ exists d, b = Some d /\ 0 <= d
        /\ ((TimeControl._time_flag c = "SIM_TIME"%string
             /\ d = sim_time wnm - TimeControl._run_at_time c
             /\ d < sim_time wnm - prev_sim_time wnm)
            \/ (TimeControl._time_flag c = "SHIFTED_TIME"%string
                /\ d = shifted_time wnm - TimeControl._run_at_time c
                /\ d < shifted_time wnm - prev_shifted_time wnm)))
  /\ (TimeControl._IsControlActionRequiredImpl c wnm presolve_flag = (false, b) -> b = None).
Proof.
  unfold TimeControl._IsControlActionRequiredImpl.
  destruct presolve_flag; cbn [negb].
  2: { split; [discriminate | intros [= <-]; reflexivity]. }
  destruct (String.eqb (TimeControl._time_flag c) "SIM_TIME") eqn:Hsim.
  - apply String.eqb_eq in Hsim.
    destruct (_ && _) eqn:E; (split; [| intros [= <-]; reflexivity || discriminate]);
      intros [= <-]. to_Z_props.
    split; [reflexivity |]. eexists. split; [reflexivity |]. split; [lia |].
    left. repeat split; [assumption | lia].
  - destruct (String.eqb (TimeControl._time_flag c) "SHIFTED_TIME") eqn:Hsh.
    + apply String.eqb_eq in Hsh.
      destruct (_ && _) eqn:E; (split; [| intros [= <-]; reflexivity || discriminate]);
        intros [= <-]. to_Z_props.
      split; [reflexivity |]. eexists. split; [reflexivity |]. split; [lia |].
      right. repeat split; [assumption | lia].
    + split; [discriminate | intros [= <-]; reflexivity].
Qed.

Lemma TimeControl_required_backtrack_witness :
  exists d, Some 0 = Some d /\ 0 <= d.
Proof.
  destruct (proj1 (TimeControl_required_backtrack close_pipe_at_7200 third_hour true (Some 0))
              eq_refl) as (_ & d & Hd & H0 & _).
  exists d. split; assumption.
Defined.

(** X19. A time control fires once: if it requires action on a step, it
    requires none on any later step (one that starts where that step
    ended, or after), as long as its [run_at_time] is not changed. *)
Theorem TimeControl_fires_once (c : TimeControl.t) (wnm wnm' : WaterNetworkModel)
    (b : option Z) (presolve_flag : bool) :
  TimeControl._IsControlActionRequiredImpl c wnm true = (true, b) ->
  sim_time wnm <= prev_sim_time wnm' ->
  shifted_time wnm <= prev_shifted_time wnm' ->
  TimeControl._IsControlActionRequiredImpl c wnm' presolve_flag = (false, None).
Proof.
  unfold TimeControl._IsControlActionRequiredImpl. cbn [negb].
  intros H Hs Hsh. destruct presolve_flag; cbn [negb]; [| reflexivity].
  destruct (String.eqb (TimeControl._time_flag c) "SIM_TIME").
  - destruct (_ && _) eqn:E in H; [| discriminate H]. to_Z_props.
    destruct (_ && _) eqn:E'; [| reflexivity]. to_Z_props. lia.
  - destruct (String.eqb (TimeControl._time_flag c) "SHIFTED_TIME"); [| reflexivity].
    destruct (_ && _) eqn:E in H; [| discriminate H]. to_Z_props.
    destruct (_ && _) eqn:E'; [| reflexivity]. to_Z_props. lia.
Qed.

Lemma TimeControl_fires_once_witness :
  TimeControl._IsControlActionRequiredImpl close_pipe_at_7200
    {| sim_time := 10800; prev_sim_time := 7200;
       shifted_time := 10800; prev_shifted_time := 7200 |} true = (false, None).
Proof.
  apply (TimeControl_fires_once close_pipe_at_7200 third_hour _ (Some 0) true);
    [reflexivity | cbn; lia | cbn; lia].
Defined.

(** X20. A daily time control that has run at its own priority is set for
    the same time one day later: it then requires action on a step
    exactly when, before the run, it required action on the step 24 hours
    earlier, and with the same backtrack. *)
Theorem TimeControl_daily_advances (c c' : TimeControl.t) (w w' : World)
    (ch : bool * option (nat * string) * option value)
    (wnm : WaterNetworkModel) (presolve_flag : bool) :
  TimeControl._daily_flag c = true ->
  TimeControl._RunControlActionImpl c w (TimeControl._priority c) = Ok (ch, c', w') ->
  TimeControl._run_at_time c' = TimeControl._run_at_time c + 86400
  /\ TimeControl._IsControlActionRequiredImpl c' (days_later 1 wnm) presolve_flag
     = TimeControl._IsControlActionRequiredImpl c wnm presolve_flag.
Proof.
  intros Hd. unfold TimeControl._RunControlActionImpl.
  destruct (TimeControl._control_action c) as [a|]; [| discriminate].
  rewrite Z.eqb_refl. cbn [negb].
  destruct (ControlAction.RunControlAction a (TimeControl.name c) w)
    as [[[[f ct] o] w1]|]; [| discriminate].
  cbn [mbind result_bind]. rewrite Hd. intros [= <- <- <-].
  split; [reflexivity |].
  unfold TimeControl._IsControlActionRequiredImpl, days_later.
  cbn [TimeControl._time_flag TimeControl._run_at_time sim_time prev_sim_time
       shifted_time prev_shifted_time].
  replace (prev_sim_time wnm + 1 * 86400 <? TimeControl._run_at_time c + 24 * 3600)
    with (prev_sim_time wnm <? TimeControl._run_at_time c)
    by (apply eq_true_iff_eq; rewrite !Z.ltb_lt; lia).
  replace (TimeControl._run_at_time c + 24 * 3600 <=? sim_time wnm + 1 * 86400)
    with (TimeControl._run_at_time c <=? sim_time wnm)
    by (apply eq_true_iff_eq; rewrite !Z.leb_le; lia).
  replace (prev_shifted_time wnm + 1 * 86400 <? TimeControl._run_at_time c + 24 * 3600)
    with (prev_shifted_time wnm <? TimeControl._run_at_time c)
    by (apply eq_true_iff_eq; rewrite !Z.ltb_lt; lia).
  replace (TimeControl._run_at_time c + 24 * 3600 <=? shifted_time wnm + 1 * 86400)
    with (TimeControl._run_at_time c <=? shifted_time wnm)
    by (apply eq_true_iff_eq; rewrite !Z.leb_le; lia).
  replace (sim_time wnm + 1 * 86400 - (TimeControl._run_at_time c + 24 * 3600))
    with (sim_time wnm - TimeControl._run_at_time c) by lia.
  replace (shifted_time wnm + 1 * 86400 - (TimeControl._run_at_time c + 24 * 3600))
    with (shifted_time wnm - TimeControl._run_at_time c) by lia.
  reflexivity.
Qed.

Lemma TimeControl_daily_advances_witness :
  exists c' w',
    TimeControl._RunControlActionImpl close_pipe_at_7200 open_pipe_world 3
    = Ok (true, Some (1%nat, "status"%string), Some LinkStatus.opened, c', w')
    /\ TimeControl._run_at_time c' = 7200 + 86400
    /\ TimeControl._IsControlActionRequiredImpl c' (days_later 1 third_hour) true
       = TimeControl._IsControlActionRequiredImpl close_pipe_at_7200 third_hour true.
Proof.
  eexists _, _. split; [vm_compute; reflexivity |].
  refine (TimeControl_daily_advances close_pipe_at_7200 _ open_pipe_world _
            (true, Some (1%nat, "status"%string), Some LinkStatus.opened)
            third_hour true eq_refl _).
  vm_compute; reflexivity.
Defined.

(** ** Conditional controls, further *)

Lemma compare_now_value (c : ConditionalControl.t) (h : gmap nat PyObj) (v : value) (x : Q) :
  getattr h (ConditionalControl._source_obj c) (ConditionalControl._source_attr c) = Ok v ->
  as_float v = Ok x ->
  ConditionalControl.compare_now c h
  = Ok (if ufunc_apply (ConditionalControl._operation c) x (ConditionalControl._threshold c)
        then (true, Some 0) else (false, None)).
Proof.
  intros Hv Hx. unfold ConditionalControl.compare_now.
  rewrite Hv. cbn [mbind result_bind].
  rewrite (ufunc_call_number _ _ _ _ Hx). cbn [mbind result_bind].
  destruct (ufunc_apply _ x _); reflexivity.
Qed.

(** X21. Before the solve a conditional control can require action only
    for an attribute named "head", and after time zero only for a tank:
    for any other attribute, and after time zero for any object that is
    not a tank, it returns [(False, None)] without reading the heap. *)
Theorem ConditionalControl_presolve_only_head
    (c : ConditionalControl.t) (wnm : WaterNetworkModel) (h : gmap nat PyObj) :
  ConditionalControl._source_attr c <> "head"%string
  \/ (sim_time wnm <> 0 /\ class_of h (ConditionalControl._source_obj c) <> Some Tank) ->
  ConditionalControl._IsControlActionRequiredImpl c wnm h true = Ok (false, None).
Proof.
  intros H. unfold ConditionalControl._IsControlActionRequiredImpl.
  destruct (String.eqb (ConditionalControl._source_attr c) "head") eqn:Ha.
  - apply String.eqb_eq in Ha. destruct H as [H | [Ht Hc]]; [contradiction |].
    rewrite bool_decide_false by exact Hc. apply Z.eqb_neq in Ht. rewrite Ht.
    reflexivity.
  - rewrite !andb_false_r. reflexivity.
Qed.

Lemma ConditionalControl_presolve_only_head_witness :
  ConditionalControl._IsControlActionRequiredImpl
    (ConditionalControl.__init__ junction_heap (0%nat, "head"%string) np_greater 10 open_pipe_1)
    first_hour junction_heap true = Ok (false, None).
Proof.
  apply ConditionalControl_presolve_only_head. right. split; discriminate.
Defined.

(** X22. After the solve a conditional control is the direct comparison
    of its attribute with its threshold, with backtrack 0 when it holds,
    for an object of any class and any attribute, except at time zero for
    an attribute named "head". *)
Theorem ConditionalControl_postsolve_compares
    (c : ConditionalControl.t) (wnm : WaterNetworkModel) (h : gmap nat PyObj)
    (v : value) (x : Q) :
  getattr h (ConditionalControl._source_obj c) (ConditionalControl._source_attr c) = Ok v ->
  as_float v = Ok x ->
  sim_time wnm <> 0 \/ ConditionalControl._source_attr c <> "head"%string ->
  ConditionalControl._IsControlActionRequiredImpl c wnm h false
  = Ok (if ufunc_apply (ConditionalControl._operation c) x (ConditionalControl._threshold c)
        then (true, Some 0) else (false, None)).
Proof.
  intros Hv Hx H. unfold ConditionalControl._IsControlActionRequiredImpl.
  rewrite (compare_now_value c h v x Hv Hx).
  destruct (bool_decide _ && _ && _ && _); [reflexivity |].
  destruct (true && _ && _ && _) eqn:E; [| reflexivity].
  apply andb_true_iff in E as [E _]. apply andb_true_iff in E as [E Ht].
  apply andb_true_iff in E as [_ Ha].
  apply Z.eqb_eq in Ht. apply String.eqb_eq in Ha. destruct H; contradiction.
Qed.

Lemma ConditionalControl_postsolve_compares_witness :
  ConditionalControl._IsControlActionRequiredImpl
    (ConditionalControl.__init__ junction_heap (0%nat, "head"%string) np_greater 10 open_pipe_1)
    first_hour junction_heap false = Ok (true, Some 0).
Proof.
  apply (ConditionalControl_postsolve_compares
           (ConditionalControl.__init__ junction_heap (0%nat, "head"%string)
              np_greater 10 open_pipe_1)
           first_hour junction_heap (VFloat 12) 12%Q eq_refl eq_refl).
  left. discriminate.
Defined.

(** ** Multi-conditional controls *)

Ltac bind_cases :=
  repeat match goal with
    | |- context [mbind _ ?m] => destruct m eqn:?; cbn [mbind result_bind]
    | |- context [if ?b then _ else _] => destruct b eqn:?
    end.

Lemma getattr_raises (h : gmap nat PyObj) (l : nat) (a : string) (e : exn) :
  getattr h l a = Raise e -> e = AttributeError.
Proof.
  unfold getattr. destruct (h !! l) as [o|]; [destruct (obj_attrs o !! a) |];
    intros [= <-]; reflexivity || discriminate.
Qed.

Lemma np_call_raises (f : ufunc) (a b : value) (e : exn) :
  np_call f a b = Raise e -> e = TypeError.
Proof.
  unfold np_call.
  destruct a, b, f; cbn [as_int as_float mbind result_bind];
    first [discriminate | by intros [= <-]].
Qed.

Lemma loop_true_iff (c : MultiConditionalControl.t) (h : gmap nat PyObj) (ndxs : list nat) :
  MultiConditionalControl.loop c h ndxs = Ok true <-> Forall (term_holds c h) ndxs.
Proof.
  induction ndxs as [|ndx rest IH]; cbn [MultiConditionalControl.loop].
  - split; [constructor | reflexivity].
  - unfold MultiConditionalControl.index. split.
    + destruct (MultiConditionalControl._source c !! ndx) as [src|] eqn:Es;
        cbn [mbind result_bind]; [| discriminate].
      destruct (getattr h (fst src) (snd src)) as [src_val|] eqn:Ev;
        cbn [mbind result_bind]; [| discriminate].
      destruct (MultiConditionalControl._relation c !! ndx) as [oper|] eqn:Eo;
        cbn [mbind result_bind]; [| discriminate].
      destruct (MultiConditionalControl._threshold c !! ndx) as [thr|] eqn:Et;
        cbn [mbind result_bind]; [| discriminate].
      destruct (MultiConditionalControl.threshold_value h thr) as [t|] eqn:Etv;
        cbn [mbind result_bind]; [| discriminate].
      assert (Hcall : src_val <> VNone ->
                      (r ← np_call oper src_val t;
                       if (r : bool) then MultiConditionalControl.loop c h rest else Ok false)
                      = Ok true ->
                      Forall (term_holds c h) (ndx :: rest)).
      { intros Hsome.
        destruct (np_call oper src_val t) as [[|]|] eqn:Ec; cbn [mbind result_bind];
          [| discriminate | discriminate].
        intros Hrest. constructor; [| by apply IH].
        exists src, oper, thr, src_val, t. repeat split; assumption. }
      destruct src_val; first [discriminate | apply Hcall; discriminate].
    + intros Hall. apply Forall_cons in Hall as [Hterm Hrest].
      destruct Hterm as (src & oper & thr & src_val & t
                         & Es & Eo & Et & Ev & Etv & Hsome & Ec).
      rewrite Es. cbn [mbind result_bind]. rewrite Ev. cbn [mbind result_bind].
      rewrite Eo. cbn [mbind result_bind]. rewrite Et. cbn [mbind result_bind].
      rewrite Etv. cbn [mbind result_bind].
      assert (Hcall : (r ← np_call oper src_val t;
                       if (r : bool) then MultiConditionalControl.loop c h rest else Ok false)
                      = Ok true).
      { rewrite Ec. cbn [mbind result_bind]. by apply IH. }
      destruct src_val; first [exact Hcall | contradiction].
Qed.

(** X24. A multi-conditional control requires action after the solve
    exactly when every one of its terms holds (in particular when it has
    no term at all), a term holding when its source is not [None] and
    stands in the term's relation to its threshold; for a source and a
    threshold that are floats that is the relation of the two numbers.
    Before the solve the control requires no action. *)
Theorem MultiConditionalControl_requires_all
    (c : MultiConditionalControl.t) (h : gmap nat PyObj) :
  (MultiConditionalControl._IsControlActionRequiredImpl c h false = Ok (true, Some 0)
   <-> Forall (term_holds c h) (seq 0 (length (MultiConditionalControl._source c))))
  /\ (forall ndx src oper thr x t,
        MultiConditionalControl._source c !! ndx = Some src ->
        MultiConditionalControl._relation c !! ndx = Some oper ->
        MultiConditionalControl._threshold c !! ndx = Some thr ->
        getattr h (fst src) (snd src) = Ok (VFloat x) ->
        MultiConditionalControl.threshold_value h thr = Ok (VFloat t) ->
        (term_holds c h ndx <-> ufunc_holds oper x t))
  /\ MultiConditionalControl._IsControlActionRequiredImpl c h true = Ok (false, None).
Proof.
  split; [| split; [| reflexivity]].
  - unfold MultiConditionalControl._IsControlActionRequiredImpl.
    rewrite <- loop_true_iff.
    destruct (MultiConditionalControl.loop c h _) as [[|]|e]; cbn [mbind result_bind];
      split; intros E; first [reflexivity | discriminate E].
  - intros ndx src oper thr x t Es Eo Et Ev Etv.
    rewrite <- ufunc_apply_holds. split.
    + intros (src' & oper' & thr' & src_val & thr_val
              & Es' & Eo' & Et' & Ev' & Etv' & _ & Ec).
      rewrite Es in Es'. injection Es' as <-.
      rewrite Eo in Eo'. injection Eo' as <-.
      rewrite Et in Et'. injection Et' as <-.
      rewrite Ev in Ev'. injection Ev' as <-.
      rewrite Etv in Etv'. injection Etv' as <-.
      cbn [np_call as_int as_float mbind result_bind] in Ec. by injection Ec.
    + intros Hu. exists src, oper, thr, (VFloat x), (VFloat t).
      repeat split; try assumption; [discriminate |].
      cbn [np_call as_int as_float mbind result_bind]. by rewrite Hu.
Qed.

(** A term of which the source is a number and the threshold attribute
    is [None] holds under [<>]: numpy compares [None] as an object. *)
Lemma MultiConditionalControl_None_threshold :
  MultiConditionalControl._IsControlActionRequiredImpl unset_threshold_multi
    unset_threshold_heap false
  = Ok (true, Some 0).
Proof. vm_compute. reflexivity. Qed.

Lemma loop_no_IndexError (c : MultiConditionalControl.t) (h : gmap nat PyObj)
    (ndxs : list nat) :
  length (MultiConditionalControl._source c) = length (MultiConditionalControl._relation c) ->
  length (MultiConditionalControl._source c) = length (MultiConditionalControl._threshold c) ->
  Forall (fun ndx => (ndx < length (MultiConditionalControl._source c))%nat) ndxs ->
  MultiConditionalControl.loop c h ndxs <> Raise IndexError.
Proof.
  intros Hlo Hlt. induction ndxs as [|ndx rest IH]; intros Hall;
    cbn [MultiConditionalControl.loop]; [discriminate |].
  apply Forall_cons in Hall as [Hlen Hrest]. specialize (IH Hrest).
  unfold MultiConditionalControl.index.
  destruct (lookup_lt_is_Some_2 (MultiConditionalControl._source c) ndx Hlen) as [src ->].
  destruct (lookup_lt_is_Some_2 (MultiConditionalControl._relation c) ndx
              ltac:(lia)) as [oper ->].
  destruct (lookup_lt_is_Some_2 (MultiConditionalControl._threshold c) ndx
              ltac:(lia)) as [thr ->].
  cbn [mbind result_bind].
  destruct (getattr h (fst src) (snd src)) as [src_val|e] eqn:Ev; cbn [mbind result_bind].
  2: { apply getattr_raises in Ev as ->. discriminate. }
  destruct (MultiConditionalControl.threshold_value h thr) as [t|e] eqn:Etv;
    cbn [mbind result_bind].
  2: { destruct thr; [discriminate Etv |].
       apply getattr_raises in Etv as ->. discriminate. }
  assert (Hcall : (r ← np_call oper src_val t;
                   if (r : bool) then MultiConditionalControl.loop c h rest else Ok false)
                  <> Raise IndexError).
  { destruct (np_call oper src_val t) as [[|]|e] eqn:Ec; cbn [mbind result_bind];
      [exact IH | discriminate |].
    apply np_call_raises in Ec as ->. discriminate. }
  destruct src_val; first [exact Hcall | discriminate].
Qed.

(** X25. A multi-conditional control that [__init__] returns never raises
    [IndexError] when it is evaluated: the three lists it indexes have
    the same length. *)
Theorem MultiConditionalControl_no_IndexError
    (source : list (nat * string)) (operation : list ufunc)
    (threshold : list MultiConditionalControl.threshold_item)
    (control_action : ControlAction.t) (c : MultiConditionalControl.t)
    (h : gmap nat PyObj) (presolve_flag : bool) :
  MultiConditionalControl.__init__ source operation threshold control_action = Ok c ->
  length source = length operation
  /\ length source = length threshold
  /\ MultiConditionalControl._IsControlActionRequiredImpl c h presolve_flag
     <> Raise IndexError.
Proof.
  unfold MultiConditionalControl.__init__.
  destruct (Nat.eqb (length source) (length operation)) eqn:E1; [| discriminate].
  destruct (Nat.eqb (length source) (length threshold)) eqn:E2; [| discriminate].
  apply Nat.eqb_eq in E1, E2. cbn [negb]. intros [= <-].
  split; [exact E1 |]. split; [exact E2 |].
  unfold MultiConditionalControl._IsControlActionRequiredImpl.
  destruct presolve_flag; [discriminate |].
  cbn [MultiConditionalControl._source].
  pose proof (loop_no_IndexError
                {| MultiConditionalControl._source := source;
                   MultiConditionalControl._relation := operation;
                   MultiConditionalControl._control_action := control_action;
                   MultiConditionalControl._threshold := threshold |}
                h (seq 0 (length source)) E1 E2) as Hloop.
  cbn [MultiConditionalControl._source] in Hloop.
  assert (Hall : Forall (fun ndx => (ndx < length source)%nat) (seq 0 (length source))).
  { apply Forall_forall. intros ndx Hin. apply list_elem_of_In, in_seq in Hin. lia. }
  specialize (Hloop Hall).
  destruct (MultiConditionalControl.loop _ h _) as [[|]|e]; cbn [mbind result_bind];
    [discriminate | discriminate | congruence].
Qed.

Lemma MultiConditionalControl_no_IndexError_witness :
  length [(1%nat, "head"%string); (2%nat, "head"%string)] = length [np_greater; np_less]
  /\ length [(1%nat, "head"%string); (2%nat, "head"%string)]
     = length [MultiConditionalControl.ThresholdFloat 3;
               MultiConditionalControl.ThresholdAttr 1%nat "head"]
  /\ MultiConditionalControl._IsControlActionRequiredImpl sample_multi
       (valve_heap LinkStatus.closed 5 0 10 2 3) false <> Raise IndexError.
Proof.
  apply (MultiConditionalControl_no_IndexError
           [(1%nat, "head"%string); (2%nat, "head"%string)] [np_greater; np_less]
           [MultiConditionalControl.ThresholdFloat 3;
            MultiConditionalControl.ThresholdAttr 1%nat "head"]
           open_pipe_1 sample_multi (valve_heap LinkStatus.closed 5 0 10 2 3) false).
  reflexivity.
Defined.

(** ** Check-valve controls *)

(** X26. A check-valve control on a pump without a head curve measures
    the head loss against the flow: it gives the result that the same
    control gives on a link that is not a pump with the two end nodes
    exchanged. *)
Theorem CheckValve_pump_is_reversed (c : _CheckValveHeadControl.t) (h : gmap nat PyObj)
    (cv' : nat) (presolve_flag : bool) :
  _CheckValveHeadControl._pump_A c = None ->
  class_of h (_CheckValveHeadControl._cv c) = Some Pump ->
  class_of h cv' <> Some Pump ->
  _CheckValveHeadControl._IsControlActionRequiredImpl c h presolve_flag
  = _CheckValveHeadControl._IsControlActionRequiredImpl (exchange_nodes c cv') h presolve_flag.
Proof.
  intros HA Hp Hn. unfold _CheckValveHeadControl._IsControlActionRequiredImpl, exchange_nodes.
  cbn [_CheckValveHeadControl._pump_A _CheckValveHeadControl._cv
       _CheckValveHeadControl._start_node _CheckValveHeadControl._end_node
       _CheckValveHeadControl._relation _CheckValveHeadControl._threshold].
  rewrite HA, bool_decide_true by exact Hp. rewrite bool_decide_false by exact Hn.
  reflexivity.
Qed.

Lemma CheckValve_pump_is_reversed_witness :
  _CheckValveHeadControl._IsControlActionRequiredImpl sample_pump_control pump_heap false
  = Ok (true, Some 0).
Proof.
  rewrite (CheckValve_pump_is_reversed sample_pump_control pump_heap 1%nat false
             eq_refl eq_refl ltac:(discriminate)).
  vm_compute. reflexivity.
Defined.

(** ** Valve controls, further *)

(** X27. Whenever a valve control requires action, the backtrack is 0 and
    the action it has selected to run leads out of the valve's current
    state: the close or the open action for an active valve, the close or
    the active action for an open valve, the open or the active action
    for a closed valve. *)
Theorem PRV_selects_another_state (c c' : _PRVControl.t) (h : gmap nat PyObj)
    (presolve_flag : bool) (b : option Z) (status : value) :
  _PRVControl._IsControlActionRequiredImpl c h presolve_flag = Ok (Some (true, b), c') ->
  getattr h (_PRVControl._valve c) "_status" = Ok status ->
  presolve_flag = false /\ b = Some 0
  /\ ((py_eq status LinkStatus.active = true
       /\ (_PRVControl._action_to_run c' = Some (_PRVControl._close_control_action c)
           \/ _PRVControl._action_to_run c' = Some (_PRVControl._open_control_action c)))
      \/ (py_eq status LinkStatus.active = false /\ py_eq status LinkStatus.opened = true
          /\ (_PRVControl._action_to_run c' = Some (_PRVControl._close_control_action c)
              \/ _PRVControl._action_to_run c' = Some (_PRVControl._active_control_action c)))
      \/ (py_eq status LinkStatus.active = false /\ py_eq status LinkStatus.opened = false
          /\ py_eq status LinkStatus.closed = true
          /\ (_PRVControl._action_to_run c' = Some (_PRVControl._open_control_action c)
              \/ _PRVControl._action_to_run c' = Some (_PRVControl._active_control_action c)))).
Proof.
  intros H Hs. revert H.
  unfold _PRVControl._IsControlActionRequiredImpl, _PRVControl.reverse_flow,
    _PRVControl.headloss.
  destruct presolve_flag; [discriminate |].
  destruct (getattr h (_PRVControl._valve c) "setting") as [setting|];
    cbn [mbind result_bind]; [| discriminate].
  destruct (getattr h (_PRVControl._end_node c) "elevation") as [elevation|];
    cbn [mbind result_bind]; [| discriminate].
  destruct (py_add setting elevation) as [head_setting|]; cbn [mbind result_bind];
    [| discriminate].
  rewrite Hs. cbn [mbind result_bind].
  destruct (py_eq status LinkStatus.active) eqn:Ea;
    [| destruct (py_eq status LinkStatus.opened) eqn:Eo;
       [| destruct (py_eq status LinkStatus.closed) eqn:Ec ]];
    bind_cases; intros E; try discriminate E; injection E as <- <-;
    (split; [reflexivity |]); (split; [reflexivity |]);
    cbn [_PRVControl._action_to_run _PRVControl.select]; tauto.
Qed.

Lemma PRV_selects_another_state_witness :
  exists c' : _PRVControl.t,
    _PRVControl._IsControlActionRequiredImpl (sample_prv (1 # 100) (1 # 100))
      (valve_heap LinkStatus.closed 5 0 10 2 3) false
    = Ok (Some (true, Some 0), c')
    /\ (_PRVControl._action_to_run c' = Some (valve_action LinkStatus.opened)
        \/ _PRVControl._action_to_run c' = Some (valve_action LinkStatus.active)).
Proof.
  eexists. split; [vm_compute; reflexivity |].
  destruct (PRV_selects_another_state (sample_prv (1 # 100) (1 # 100)) _
              (valve_heap LinkStatus.closed 5 0 10 2 3) false (Some 0) LinkStatus.closed
              ltac:(vm_compute; reflexivity) eq_refl)
    as (_ & _ & [(E & _) | [(_ & E & _) | (_ & _ & _ & Hc)]]);
    [discriminate E | discriminate E | exact Hc].
Defined.

(** X28. After an evaluation that requires action, running the valve
    control at priority 3 runs the action just selected, one of the
    control's own three; an evaluation that requires none leaves the
    control as it was, with whatever action was selected before. *)
Theorem PRV_runs_selected_action (c c' : _PRVControl.t) (h : gmap nat PyObj)
    (presolve_flag : bool) (r : option (bool * option Z)) :
  _PRVControl._IsControlActionRequiredImpl c h presolve_flag = Ok (r, c') ->
  ((exists b, r = Some (true, b)) ->
     exists a,
       _PRVControl._action_to_run c' = Some a
       /\ (a = _PRVControl._close_control_action c
           \/ a = _PRVControl._open_control_action c
           \/ a = _PRVControl._active_control_action c)
       /\ forall w,
            _PRVControl._RunControlActionImpl c' w 3
            = ('(f, ch, o, w') ← ControlAction.RunControlAction a "blah" w;
               Ok (f, ch, o, c', w')))
  /\ ((forall b, r <> Some (true, b)) -> c' = c).
Proof.
  unfold _PRVControl._IsControlActionRequiredImpl, _PRVControl.reverse_flow,
    _PRVControl.headloss.
  destruct presolve_flag.
  { intros [= <- <-]. split; [intros [b Hb]; discriminate Hb | reflexivity]. }
  bind_cases; intros E; try discriminate E; injection E as <- <-.
  all: split.
  all: try (intros Hn; first [reflexivity | exfalso; eapply Hn; reflexivity]).
  all: try (intros [b0 Hb]; discriminate Hb).
  all: intros _; eexists; split; [reflexivity |]; split; [tauto |];
    intros w; reflexivity.
Qed.

Lemma PRV_runs_selected_action_witness :
  exists a,
    _PRVControl._action_to_run
      (_PRVControl.select (sample_prv (1 # 100) (1 # 100)) (valve_action LinkStatus.active))
    = Some a
    /\ (a = valve_action LinkStatus.closed
        \/ a = valve_action LinkStatus.opened
        \/ a = valve_action LinkStatus.active).
Proof.
  destruct (proj1 (PRV_runs_selected_action (sample_prv (1 # 100) (1 # 100))
                     (_PRVControl.select (sample_prv (1 # 100) (1 # 100))
                        (valve_action LinkStatus.active))
                     (valve_heap LinkStatus.closed 5 0 10 2 3) false (Some (true, Some 0))
                     ltac:(vm_compute; reflexivity))
              ltac:(eexists; reflexivity)) as (a & Ha & Hor & _).
  exists a. split; assumption.
Defined.

(** ** The log of changes *)

Lemma py_eq_trans (v1 v2 v3 : value) :
  py_eq v1 v2 = true -> py_eq v2 v3 = true -> py_eq v1 v3 = true.
Proof.
  destruct v1, v2, v3; cbn; try discriminate; try (intros; reflexivity);
    rewrite ?Qeq_bool_iff, ?String.eqb_eq; intros E1 E2;
    first [ congruence | by rewrite E1 | by rewrite <- E2 | (rewrite E1; exact E2) ].
Qed.

Lemma py_eq_proper_r (k k1 k2 : value) :
  py_eq k1 k2 = true -> py_eq k k1 = py_eq k k2.
Proof.
  intros E. apply eq_true_iff_eq. split; intros H.
  - eapply py_eq_trans; eassumption.
  - eapply py_eq_trans; [eassumption |]. by rewrite py_eq_sym.
Qed.

Section PyDictFacts.

Context {V : Type}.
Implicit Types (d : list (value * V)) (k : value) (v : V).

Lemma dict_get_proper d k1 k2 : py_eq k1 k2 = true -> dict_get d k1 = dict_get d k2.
Proof.
  intros E. induction d as [|[k0 v0] d IH]; cbn; [reflexivity |].
  by rewrite (py_eq_proper_r k0 k1 k2 E), IH.
Qed.

Lemma dict_get_set_same d k v : dict_get (dict_set d k v) k = Some v.
Proof.
  induction d as [|[k0 v0] d IH]; cbn.
  - by rewrite py_eq_refl.
  - destruct (py_eq k0 k) eqn:E; cbn; by rewrite E.
Qed.

Lemma dict_get_set_other d k k' v :
  py_eq k k' = false -> dict_get (dict_set d k v) k' = dict_get d k'.
Proof.
  intros Hne. induction d as [|[k0 v0] d IH]; cbn.
  - by rewrite Hne.
  - destruct (py_eq k0 k) eqn:E; cbn.
    + by rewrite (py_eq_sym k0 k'), (py_eq_proper_r k' k0 k E), (py_eq_sym k' k), Hne.
    + destruct (py_eq k0 k'); [reflexivity | exact IH].
Qed.

Lemma dict_contains_keys d k :
  dict_contains d k = existsb (fun k0 => py_eq k0 k) (dict_keys d).
Proof.
  unfold dict_contains, dict_keys. induction d as [|[k0 v0] d IH]; cbn; [reflexivity |].
  destruct (py_eq k0 k); [reflexivity | exact IH].
Qed.

Lemma dict_keys_set d k v :
  dict_keys (dict_set d k v) = if dict_contains d k then dict_keys d else dict_keys d ++ [k].
Proof.
  unfold dict_contains, dict_keys. induction d as [|[k0 v0] d IH]; cbn; [reflexivity |].
  destruct (py_eq k0 k); cbn; [reflexivity |].
  rewrite IH. destruct (dict_get d k); reflexivity.
Qed.

End PyDictFacts.

Lemma dict_contains_same_keys {V W : Type} (d1 : list (value * V)) (d2 : list (value * W))
    (k : value) :
  dict_keys d1 = dict_keys d2 -> dict_contains d1 k = dict_contains d2 k.
Proof. intros E. by rewrite !dict_contains_keys, E. Qed.

(** One [add] on a log whose two dicts have the same keys. *)
Lemma add_inv (self : ControlLogger.t) (h : gmap nat PyObj) (obj : nat) (attr : string) :
  dict_keys (ControlLogger.changed_objects self)
  = dict_keys (ControlLogger.changed_attributes self) ->
  match getattr h obj "name" with
  | Raise _ => ControlLogger.add self h obj attr = inr ControlLogger.NoName
  | Ok name =>
      exists self',
        ControlLogger.add self h obj attr = inl self'
        /\ dict_keys (ControlLogger.changed_objects self')
           = dict_keys (ControlLogger.changed_attributes self')
        /\ ControlLogger.changed_attributes self'
           = dict_set (ControlLogger.changed_attributes self) name
               (match dict_get (ControlLogger.changed_attributes self) name with
                | Some l => l ++ [attr]
                | None => [attr]
                end)
  end.
Proof.
  intros Hkeys. unfold ControlLogger.add.
  destruct (getattr h obj "name") as [name|]; [| reflexivity].
  rewrite (dict_contains_same_keys _ _ name Hkeys).
  unfold dict_contains.
  destruct (dict_get (ControlLogger.changed_attributes self) name) as [l|] eqn:El.
  - eexists. split; [reflexivity |]. split; [| reflexivity].
    cbn [ControlLogger.changed_objects ControlLogger.changed_attributes].
    rewrite dict_keys_set. unfold dict_contains. by rewrite El.
  - eexists. split; [reflexivity |]. split; [| reflexivity].
    cbn [ControlLogger.changed_objects ControlLogger.changed_attributes].
    rewrite !dict_keys_set. rewrite (dict_contains_same_keys _ _ name Hkeys).
    unfold dict_contains. by rewrite El, Hkeys.
Qed.

Lemma add_all_keys (h : gmap nat PyObj) (calls : list (nat * string)) :
  forall self : ControlLogger.t,
    dict_keys (ControlLogger.changed_objects self)
    = dict_keys (ControlLogger.changed_attributes self) ->
    match ControlLogger.add_all self h calls with
    | inl log => dict_keys (ControlLogger.changed_objects log)
                 = dict_keys (ControlLogger.changed_attributes log)
    | inr e => e = ControlLogger.NoName
    end.
Proof.
  induction calls as [|[obj attr] rest IH]; intros self Hkeys;
    cbn [ControlLogger.add_all]; [exact Hkeys |].
  pose proof (add_inv self h obj attr Hkeys) as Hadd.
  destruct (getattr h obj "name") as [name|].
  - destruct Hadd as (self' & -> & Hkeys' & _). by apply IH.
  - by rewrite Hadd.
Qed.

(** X29. A log filled by [add] alone has the same names, in the same
    order, in its two dicts, and so [add] never raises [KeyError] on it;
    the only failure of [add] is an object without a [name]. *)
Theorem ControlLogger_add_keeps_keys (h : gmap nat PyObj) (calls : list (nat * string)) :
  match ControlLogger.add_all ControlLogger.__init__ h calls with
  | inl log => dict_keys (ControlLogger.changed_objects log)
               = dict_keys (ControlLogger.changed_attributes log)
  | inr e => e = ControlLogger.NoName
  end.
Proof. by apply add_all_keys. Qed.

Lemma add_all_recorded (h : gmap nat PyObj) (name : value) (calls : list (nat * string)) :
  forall self log : ControlLogger.t,
    dict_keys (ControlLogger.changed_objects self)
    = dict_keys (ControlLogger.changed_attributes self) ->
    ControlLogger.add_all self h calls = inl log ->
    dict_get (ControlLogger.changed_attributes log) name
    = match dict_get (ControlLogger.changed_attributes self) name with
      | Some l => Some (l ++ recorded h name calls)
      | None =>
          match recorded h name calls with
          | [] => None
          | l => Some l
          end
      end.
Proof.
  induction calls as [|[obj attr] rest IH]; intros self log Hkeys;
    cbn [ControlLogger.add_all recorded].
  - intros [= <-].
    destruct (dict_get (ControlLogger.changed_attributes self) name) as [l|];
      [by rewrite app_nil_r | reflexivity].
  - pose proof (add_inv self h obj attr Hkeys) as Hadd.
    destruct (getattr h obj "name") as [n|]; [| by rewrite Hadd].
    destruct Hadd as (self' & -> & Hkeys' & Hattrs). intros Hrest.
    rewrite (IH self' log Hkeys' Hrest), Hattrs.
    destruct (py_eq n name) eqn:En.
    + rewrite <- (dict_get_proper _ n name En), dict_get_set_same.
      rewrite <- (dict_get_proper (ControlLogger.changed_attributes self) n name En).
      destruct (dict_get (ControlLogger.changed_attributes self) n) as [l|];
        [by rewrite <- app_assoc | reflexivity].
    + by rewrite (dict_get_set_other _ n name _ En).
Qed.

(** X30. After a run of [add] calls on a fresh log, the attributes logged
    under a name are exactly the attributes of the calls whose object has
    that name, in the order of the calls; a name that no call used has no
    entry. *)
Theorem ControlLogger_records_in_order (h : gmap nat PyObj) (name : value)
    (calls : list (nat * string)) (log : ControlLogger.t) :
  ControlLogger.add_all ControlLogger.__init__ h calls = inl log ->
  dict_get (ControlLogger.changed_attributes log) name
  = match recorded h name calls with
    | [] => None
    | l => Some l
    end.
Proof.
  intros H. apply (add_all_recorded h name calls ControlLogger.__init__ log eq_refl H).
Qed.

Lemma ControlLogger_records_in_order_witness :
  exists log,
    ControlLogger.add_all ControlLogger.__init__ named_links_heap
      [(1%nat, "status"%string); (2%nat, "setting"%string); (1%nat, "setting"%string)]
    = inl log
    /\ dict_get (ControlLogger.changed_attributes log) (VStr "pipe1")
       = Some ["status"%string; "setting"%string].
Proof.
  eexists. split; [vm_compute; reflexivity |].
  rewrite (ControlLogger_records_in_order named_links_heap (VStr "pipe1")
             [(1%nat, "status"%string); (2%nat, "setting"%string); (1%nat, "setting"%string)]
             _ ltac:(vm_compute; reflexivity)).
  reflexivity.
Defined.
